(** * mofox_period_plugin: the cycle state calculator and its two consumers

    A shallow embedding of [src/plugin.py]: the per-day cached state
    calculator [PeriodStateManager], the prompt formatter
    [PeriodStatePrompt] and the status command [PeriodStatusCommand],
    together with the parts of the Python runtime they rely on
    (exceptions, integer and binary64 arithmetic, [round], dates and
    [strptime], dictionaries allocated on a heap). *)

From Stdlib Require Import ZArith List String Ascii Bool Lia DecimalString.
From Stdlib Require Import PrimFloat SpecFloat FloatOps.
From stdpp Require Import base option list gmap strings.

Set Warnings "-inexact-float".
Local Open Scope Z_scope.

(** ** Exceptions and results *)

(** The exceptions the modelled code can raise; each carries what
    [str(e)] shows.  All of them derive from [Exception]. *)
Inductive exn : Type :=
  | ValueError (msg : string)
  | ZeroDivisionError (msg : string)
  | OverflowError (msg : string)
  | TypeError (msg : string)
  | KeyError (key : string).

Definition exn_str (e : exn) : string :=
  match e with
  | ValueError m | ZeroDivisionError m | OverflowError m | TypeError m => m
  | KeyError k => String "'" (k +:+ "'")
  end.

Definition is_ValueError (e : exn) : bool :=
  match e with ValueError _ => true | _ => false end.

(** [except Exception] catches every member of [exn]. *)
Definition is_Exception (e : exn) : bool :=
  match e with
  | ValueError _ | ZeroDivisionError _ | OverflowError _
  | TypeError _ | KeyError _ => true
  end.

(** The outcome of a pure computation. *)
Inductive result (A : Type) : Type :=
  | Ok (a : A)
  | Raise (e : exn).
Arguments Ok {A} a.
Arguments Raise {A} e.

#[global] Instance result_ret : MRet result := fun _ a => Ok a.
#[global] Instance result_bind : MBind result := fun _ _ f r =>
  match r with Ok a => f a | Raise e => Raise e end.

Definition is_Ok {A} (r : result A) : bool :=
  match r with Ok _ => true | Raise _ => false end.

(** ** Binary64 arithmetic as Python performs it *)

Module PyFloat.

(** The binary64 number nearest to [n / d] (ties to even), for [0 <= n]
    and [0 < d], with sign [s]. *)
Definition SF_of_ratio (s : bool) (n d : Z) : spec_float :=
  let '(m, e, l) := SFdiv_core_binary prec emax n 0 d 0 in
  binary_round_aux prec emax s m e l.

Definition of_ratio (s : bool) (n d : Z) : float := SF2Prim (SF_of_ratio s n d).

(** A quotient of this magnitude or more rounds beyond the largest finite
    binary64 number. *)
Definition overflow_threshold : Z := 2 ^ 1024 - 2 ^ 970.

(** [int / int]: true division of two integers, correctly rounded. *)
Definition int_true_divide (a b : Z) : result float :=
  if b =? 0 then Raise (ZeroDivisionError "division by zero")
  else if overflow_threshold * Z.abs b <=? Z.abs a
  then Raise (OverflowError "integer division result too large for a float")
  else Ok (of_ratio (xorb (a <? 0) (b <? 0)) (Z.abs a) (Z.abs b)).

(** The integer nearest to [n / d], ties to even, for [0 <= n], [0 < d]. *)
Definition div_half_even (n d : Z) : Z :=
  let q := n / d in
  match 2 * (n mod d) ?= d with
  | Lt => q
  | Eq => if Z.even q then q else q + 1
  | Gt => q + 1
  end.

(** [round(x, 2)]: the exact value of [x] is rounded to two decimals
    (ties to even) and the decimal is converted back to the nearest
    binary64 number.  Zeros, infinities and NaN are returned as they
    are. *)
Definition round2 (x : float) : float :=
  match Prim2SF x with
  | S754_finite s m e =>
      let hundredths :=
        match e with
        | Zneg p => div_half_even (Zpos m * 100) (2 ^ Zpos p)
        | _ => Zpos m * 100 * 2 ^ e
        end in
      of_ratio s hundredths 100
  | _ => x
  end.

(** [min(a, b)] keeps [a] unless [b < a]. *)
Definition min (a b : float) : float := if PrimFloat.ltb b a then b else a.

(** [a >= b]. *)
Definition ge (a b : float) : bool := PrimFloat.leb b a.

End PyFloat.

(** [a % b] on integers: the remainder has the sign of the divisor. *)
Definition int_mod (a b : Z) : result Z :=
  if b =? 0 then Raise (ZeroDivisionError "integer modulo by zero")
  else Ok (a mod b).

(** ** Calendar dates

    A [datetime.date] is represented by its proleptic Gregorian
    ordinal ([date.toordinal()]): 0001-01-01 is day 1 and 9999-12-31 is
    day 3652059.  Subtracting two dates gives the difference of their
    ordinals in days. *)

Module PyDate.

Definition date := Z.

Definition MINYEAR : Z := 1.
Definition min_ordinal : Z := 1.
Definition max_ordinal : Z := 3652059.

Definition is_leap (year : Z) : bool :=
  (year mod 4 =? 0) && (negb (year mod 100 =? 0) || (year mod 400 =? 0)).

Definition days_before_year (year : Z) : Z :=
  let y := year - 1 in
  y * 365 + y / 4 - y / 100 + y / 400.

Definition DAYS_IN_MONTH : list Z :=
  [31; 28; 31; 30; 31; 30; 31; 31; 30; 31; 30; 31].

Definition DAYS_BEFORE_MONTH : list Z :=
  [0; 31; 59; 90; 120; 151; 181; 212; 243; 273; 304; 334].

Definition days_in_month (year month : Z) : Z :=
  if (month =? 2) && is_leap year then 29
  else nth (Z.to_nat (month - 1)) DAYS_IN_MONTH 0.

Definition days_before_month (year month : Z) : Z :=
  nth (Z.to_nat (month - 1)) DAYS_BEFORE_MONTH 0
  + (if (2 <? month) && is_leap year then 1 else 0).

Definition ymd2ord (year month day : Z) : date :=
  days_before_year year + days_before_month year month + day.

(** [date(year, month, day)] with the constructor's range checks. *)
Definition make_date (year month day : Z) : result date :=
  if negb ((MINYEAR <=? year) && (year <=? 9999))
  then Raise (ValueError "year is out of range")
  else if negb ((1 <=? month) && (month <=? 12))
  then Raise (ValueError "month must be in 1..12")
  else if negb ((1 <=? day) && (day <=? days_in_month year month))
  then Raise (ValueError "day is out of range for month")
  else Ok (ymd2ord year month day).

(** [d - timedelta(days=n)] *)
Definition sub_days (d : date) (n : Z) : result date :=
  let r := d - n in
  if (min_ordinal <=? r) && (r <=? max_ordinal) then Ok r
  else Raise (OverflowError "date value out of range").

(** *** [datetime.strptime(s, "%Y-%m-%d").date()]

    The format is matched as the regular expression
    [(\d\d\d\d)-(1[0-2]|0[1-9]|[1-9])-(3[0-1]|[1-2]\d|0[1-9]|[1-9]| [1-9])]
    anchored at the start of [s]; alternatives are tried from left to
    right, and text left over after the match is an error.

    A Python string is a sequence of Unicode characters; a [string]
    holds its UTF-8 encoding and is decoded first.  The class [\d]
    matches every decimal digit of Unicode (general category Nd), and
    [int] converts them; the ranges [[0-2]], [[1-9]] and the like match
    the ASCII digits only. *)

Definition byte (c : ascii) : Z := Z.of_N (N_of_ascii c).

Definition is_continuation (b : Z) : bool := (128 <=? b) && (b <=? 191).

(** The code point that stands for a byte that is part of no UTF-8
    sequence: it is no character, so it matches nothing. *)
Definition undecodable : Z := -1.

(** The characters of a UTF-8 text (shortest encodings only, no
    surrogates, nothing above U+10FFFF). *)
Fixpoint decode_utf8 (s : list ascii) : list Z :=
  match s with
  | [] => []
  | a :: r =>
      let b0 := byte a in
      if b0 <? 128 then b0 :: decode_utf8 r
      else
        match r with
        | a1 :: r1 =>
            let b1 := byte a1 in
            if (192 <=? b0) && (b0 <=? 223) then
              let c := (b0 - 192) * 64 + (b1 - 128) in
              if is_continuation b1 && (128 <=? c) then c :: decode_utf8 r1
              else undecodable :: decode_utf8 r
            else
              match r1 with
              | a2 :: r2 =>
                  let b2 := byte a2 in
                  if (224 <=? b0) && (b0 <=? 239) then
                    let c := (b0 - 224) * 4096 + (b1 - 128) * 64 + (b2 - 128) in
                    if is_continuation b1 && is_continuation b2
                       && (2048 <=? c) && negb ((55296 <=? c) && (c <=? 57343))
                    then c :: decode_utf8 r2
                    else undecodable :: decode_utf8 r
                  else
                    match r2 with
                    | a3 :: r3 =>
                        let b3 := byte a3 in
                        let c := (b0 - 240) * 262144 + (b1 - 128) * 4096
                                 + (b2 - 128) * 64 + (b3 - 128) in
                        if (240 <=? b0) && (b0 <=? 247)
                           && is_continuation b1 && is_continuation b2
                           && is_continuation b3
                           && (65536 <=? c) && (c <=? 1114111)
                        then c :: decode_utf8 r3
                        else undecodable :: decode_utf8 r
                    | [] => undecodable :: decode_utf8 r
                    end
              | [] => undecodable :: decode_utf8 r
              end
        | [] => [undecodable]
        end
  end.

(** The characters with the decimal value 0 in Unicode 14.0, the
    version of CPython 3.11; each is followed by the digits 1 to 9 of
    its script. *)
Definition DECIMAL_ZEROS : list Z :=
  [
    48; 1632; 1776; 1984; 2406; 2534; 2662; 2790; 2918; 3046; 3174;
    3302; 3430; 3558; 3664; 3792; 3872; 4160; 4240; 6112; 6160; 6470;
    6608; 6784; 6800; 6992; 7088; 7232; 7248; 42528; 43216; 43264;
    43472; 43504; 43600; 44016; 65296; 66720; 68912; 69734; 69872;
    69942; 70096; 70384; 70736; 70864; 71248; 71360; 71472; 71904;
    72016; 72784; 73040; 73120; 92768; 92864; 93008; 120782; 120792;
    120802; 120812; 120822; 123200; 123632; 125264; 130032 ].

(** [\d], with the value [int] gives the digit. *)
Definition decimal (c : Z) : option Z :=
  match List.find (fun z => (z <=? c) && (c <=? z + 9)) DECIMAL_ZEROS with
  | Some z => Some (c - z)
  | None => None
  end.

(** An ASCII digit. *)
Definition digit (c : Z) : option Z :=
  if (48 <=? c) && (c <=? 57) then Some (c - 48) else None.

(** A range of ASCII digits such as [[1-9]]. *)
Definition digit_in (lo hi : Z) (c : Z) : option Z :=
  match digit c with
  | Some n => if (lo <=? n) && (n <=? hi) then Some n else None
  | None => None
  end.

Definition is_dash (c : Z) : bool := c =? 45.
Definition is_space (c : Z) : bool := c =? 32.

(** [%Y]: four decimal digits. *)
Definition match_year (s : list Z) : option (Z * list Z) :=
  match s with
  | a :: b :: c :: d :: rest =>
      match decimal a, decimal b, decimal c, decimal d with
      | Some a, Some b, Some c, Some d =>
          Some (a * 1000 + b * 100 + c * 10 + d, rest)
      | _, _, _, _ => None
      end
  | _ => None
  end.

(** [%m] followed by the literal [-]: the first of [1[0-2]], [0[1-9]],
    [[1-9]] after which a dash stands. *)
Definition match_month_dash (s : list Z) : option (Z * list Z) :=
  let two :=
    match s with
    | a :: b :: c :: rest =>
        if is_dash c then
          match digit_in 1 1 a, digit_in 0 2 b with
          | Some _, Some n => Some (10 + n, rest)
          | _, _ =>
              match digit_in 0 0 a, digit_in 1 9 b with
              | Some _, Some n => Some (n, rest)
              | _, _ => None
              end
          end
        else None
    | _ => None
    end in
  match two with
  | Some r => Some r
  | None =>
      match s with
      | a :: b :: rest =>
          if is_dash b then
            match digit_in 1 9 a with
            | Some n => Some (n, rest)
            | None => None
            end
          else None
      | _ => None
      end
  end.

(** [%d]: the first of [3[0-1]], [[1-2]\d], [0[1-9]], [[1-9]], [ [1-9]]
    that matches a prefix. *)
Definition match_day (s : list Z) : option (Z * list Z) :=
  let two :=
    match s with
    | a :: b :: rest =>
        match digit_in 3 3 a, digit_in 0 1 b with
        | Some _, Some n => Some (30 + n, rest)
        | _, _ =>
            match digit_in 1 2 a, decimal b with
            | Some t, Some n => Some (t * 10 + n, rest)
            | _, _ =>
                match digit_in 0 0 a, digit_in 1 9 b with
                | Some _, Some n => Some (n, rest)
                | _, _ => None
                end
            end
        end
    | _ => None
    end in
  match two with
  | Some r => Some r
  | None =>
      match s with
      | a :: rest =>
          match digit_in 1 9 a with
          | Some n => Some (n, rest)
          | None =>
              match rest with
              | b :: rest' =>
                  if is_space a then
                    match digit_in 1 9 b with
                    | Some n => Some (n, rest')
                    | None => None
                    end
                  else None
              | [] => None
              end
          end
      | [] => None
      end
  end.

Definition no_match {A} : result A :=
  Raise (ValueError "time data does not match format '%Y-%m-%d'").

Definition strptime_ymd (s : string) : result date :=
  match match_year (decode_utf8 (list_ascii_of_string s)) with
  | Some (year, c :: s1) =>
      if is_dash c then
        match match_month_dash s1 with
        | Some (month, s2) =>
            match match_day s2 with
            | Some (day, []) => make_date year month day
            | Some (_, _ :: _) => Raise (ValueError "unconverted data remains")
            | None => no_match
            end
        | None => no_match
        end
      else no_match
  | _ => no_match
  end.

End PyDate.

(** ** Objects, the heap and the host's channels *)

(** The values stored in a state dictionary. *)
Inductive pyval : Type :=
  | VStr (s : string)
  | VInt (z : Z)
  | VFloat (f : float).

Abbreviation pydict := (gmap string pyval).

(** A dictionary object is known by its location on the heap; two
    references are the same object exactly when the locations agree. *)
Definition loc := nat.

Inductive level : Type := LvlDebug | LvlInfo | LvlWarning | LvlError.

(** The attributes of a [PeriodStateManager] instance. *)
Record PeriodStateManager : Type := {
  last_calculated_date : option PyDate.date;
  current_state : option loc
}.

(** [PeriodStateManager.__init__] *)
Definition PeriodStateManager_init : PeriodStateManager :=
  {| last_calculated_date := None; current_state := None |}.

(** What a call can read and change: the manager it works on, the heap
    of dictionaries, the records handed to [logger] and the texts handed
    to [send_text]. *)
Record Machine : Type := {
  state_manager : PeriodStateManager;
  heap : list pydict;
  log : list (level * string);
  outbox : list string
}.

(** A computation on the machine: it ends with a value or an exception,
    and what it changed before an exception stays changed. *)
Definition M (A : Type) : Type := Machine → result A * Machine.

#[global] Instance M_ret : MRet M := fun _ a m => (Ok a, m).
#[global] Instance M_bind : MBind M := fun _ _ f c m =>
  match c m with
  | (Ok a, m') => f a m'
  | (Raise e, m') => (Raise e, m')
  end.

Definition lift {A} (r : result A) : M A := fun m => (r, m).

(** [try: body / except <caught>: handler] *)
Definition try_except {A} (body : M A) (caught : exn → bool)
    (handler : exn → M A) : M A := fun m =>
  match body m with
  | (Ok a, m') => (Ok a, m')
  | (Raise e, m') => if caught e then handler e m' else (Raise e, m')
  end.

Definition get_manager : M PeriodStateManager := fun m => (Ok (state_manager m), m).
Definition get_heap : M (list pydict) := fun m => (Ok (heap m), m).

Definition set_current_state (v : option loc) : M unit := fun m =>
  (Ok tt,
   {| state_manager :=
        {| last_calculated_date := last_calculated_date (state_manager m);
           current_state := v |};
      heap := heap m; log := log m; outbox := outbox m |}).

Definition set_last_calculated_date (v : option PyDate.date) : M unit := fun m =>
  (Ok tt,
   {| state_manager :=
        {| last_calculated_date := v;
           current_state := current_state (state_manager m) |};
      heap := heap m; log := log m; outbox := outbox m |}).

(** A dictionary display [{...}] creates a new object. *)
Definition alloc (d : pydict) : M loc := fun m =>
  (Ok (length (heap m)),
   {| state_manager := state_manager m;
      heap := heap m ++ [d]; log := log m; outbox := outbox m |}).

(** Reading through a reference; a reference always names an allocated
    object, the other case stands for an interpreter fault. *)
Definition deref (l : loc) : M pydict := fun m =>
  match heap m !! l with
  | Some d => (Ok d, m)
  | None => (Raise (TypeError "dangling reference"), m)
  end.

Definition logger (lv : level) (msg : string) : M unit := fun m =>
  (Ok tt,
   {| state_manager := state_manager m;
      heap := heap m; log := log m ++ [(lv, msg)]; outbox := outbox m |}).

Definition send_text (text : string) : M unit := fun m =>
  (Ok tt,
   {| state_manager := state_manager m;
      heap := heap m; log := log m; outbox := outbox m ++ [text] |}).

(** [d[k]] and [d.get(k, default)] *)
Definition dict_getitem {V} (d : gmap string V) (k : string) : result V :=
  match d !! k with
  | Some v => Ok v
  | None => Raise (KeyError k)
  end.

Definition dict_get {V} (d : gmap string V) (k : string) (default : V) : V :=
  match d !! k with
  | Some v => v
  | None => default
  end.

(** The truth value of a dictionary: it is true unless empty. *)
Definition dict_truthy (d : pydict) : bool := negb (Nat.eqb (size d) 0).

(** ** [PeriodStateManager] *)

Definition base_impacts : gmap string (float * float) :=
  list_to_map
    [ ("menstrual", (0.8, 0.7)%float);
      ("follicular", (0.1, 0.1)%float);
      ("ovulation", (0.4, 0.2)%float);
      ("luteal", (0.6, 0.5)%float) ].

Definition _calculate_impacts (stage : string) (current_day cycle_length : Z)
    : result (float * float) :=
  '(physical_base, psychological_base) ← dict_getitem base_impacts stage;
  '(physical_impact, psychological_impact) ←
    (if String.eqb stage "menstrual" then
       let day_in_stage := current_day in
       q ← PyFloat.int_true_divide (day_in_stage - 1) 5;
       let intensity := (1.0 - q * 0.3)%float in
       Ok ((physical_base * intensity)%float,
           (psychological_base * intensity)%float)
     else if String.eqb stage "luteal" then
       let day_in_stage := current_day - 14 in
       let total_days := cycle_length - 14 in
       q ← PyFloat.int_true_divide day_in_stage total_days;
       let intensity := (0.7 + q * 0.3)%float in
       Ok (PyFloat.min (physical_base * intensity)%float 0.8%float,
           PyFloat.min (psychological_base * intensity)%float 0.7%float)
     else
       Ok (physical_base, psychological_base));
  Ok (PyFloat.round2 physical_impact, PyFloat.round2 psychological_impact).

Definition stage_names : gmap string string :=
  list_to_map
    [ ("menstrual", "月经期"); ("follicular", "卵泡期");
      ("ovulation", "排卵期"); ("luteal", "黄体期") ].

Definition _get_stage_name_cn (stage : string) : string :=
  dict_get stage_names stage "未知阶段".

Definition stage_descriptions : gmap string string :=
  list_to_map
    [ ("menstrual", "身体不适，情绪敏感，需要更多休息和理解");
      ("follicular", "精力充沛，情绪积极，思维清晰");
      ("ovulation", "状态良好，外向活泼，富有魅力");
      ("luteal", "身体疲惫，情绪波动，需要更多耐心") ].

Definition _get_stage_description (stage : string) : string :=
  dict_get stage_descriptions stage "".

(** The cached object, when line 25 of the source takes the early
    return: the stored date equals today and the stored state is true. *)
Definition cached (self : PeriodStateManager) (h : list pydict)
    (today : PyDate.date) : option loc :=
  match last_calculated_date self, current_state self with
  | Some d, Some l =>
      if (d =? today) && from_option dict_truthy false (h !! l)
      then Some l else None
  | _, _ => None
  end.

(** [today] is the calendar date [datetime.now().date()] shows while
    the call runs. *)
Definition calculate_current_state (today : PyDate.date)
    (last_period_date : string) (cycle_length : Z) : M loc :=
  self ← get_manager;
  h ← get_heap;
  match cached self h today with
  | Some l => mret l
  | None =>
      last_date ←
        try_except (lift (PyDate.strptime_ymd last_period_date))
          is_ValueError
          (fun _ =>
             logger LvlError
               ("无效的日期格式: " +:+ last_period_date +:+ ", 使用默认值");;
             lift (PyDate.sub_days today 14));
      let days_passed := today - last_date in
      r ← lift (int_mod days_passed cycle_length);
      let current_day := r + 1 in
      let stage :=
        if current_day <=? 5 then "menstrual"
        else if current_day <=? 13 then "follicular"
        else if current_day =? 14 then "ovulation"
        else "luteal" in
      '(physical_impact, psychological_impact) ←
        lift (_calculate_impacts stage current_day cycle_length);
      l ← alloc
        (list_to_map
           [ ("stage", VStr stage);
             ("current_day", VInt current_day);
             ("cycle_length", VInt cycle_length);
             ("physical_impact", VFloat physical_impact);
             ("psychological_impact", VFloat psychological_impact);
             ("stage_name_cn", VStr (_get_stage_name_cn stage));
             ("description", VStr (_get_stage_description stage)) ]);
      set_current_state (Some l);;
      set_last_calculated_date (Some today);;
      mret l
  end.

(** ** Text *)

Definition nl : string := String "010"%char "".

(** The characters [str.strip()] removes, among ASCII text. *)
Definition is_whitespace (c : ascii) : bool :=
  let n := N_of_ascii c in
  ((9 <=? n) && (n <=? 13) || (28 <=? n) && (n <=? 32))%N.

Fixpoint lstrip (s : string) : string :=
  match s with
  | String c s' => if is_whitespace c then lstrip s' else s
  | EmptyString => EmptyString
  end.

(** The text with its trailing whitespace removed: a character stays
    when something other than whitespace follows or it is none itself. *)
Fixpoint rstrip (s : string) : string :=
  match s with
  | String c s' =>
      match rstrip s' with
      | EmptyString => if is_whitespace c then EmptyString else String c EmptyString
      | r => String c r
      end
  | EmptyString => EmptyString
  end.

Definition strip (s : string) : string := rstrip (lstrip s).

(** [sep.join(parts)] *)
Fixpoint join (sep : string) (parts : list string) : string :=
  match parts with
  | [] => ""
  | [p] => p
  | p :: rest => p +:+ sep +:+ join sep rest
  end.

(** The truth value of a string: it is true unless empty. *)
Definition str_truthy (s : string) : bool :=
  match s with EmptyString => false | String _ _ => true end.

Definition str_of_int (z : Z) : string :=
  DecimalString.NilZero.string_of_int (Z.to_int z).

(** ** Configuration

    The three keys the entry points read, as [config_schema] types
    them; a key the host has no value for is [None], and [get_config]
    then returns the default given at the call. *)

Record PluginConfig : Type := {
  plugin_enabled : option bool;
  cycle_last_period_date : option string;
  cycle_cycle_length : option Z
}.

Definition get_config {A} (value : option A) (default : A) : A :=
  match value with
  | Some v => v
  | None => default
  end.

(** ** The two consumers

    [repr] of a float, which the f-strings use to show the impact
    values, is taken as given. *)

Definition py_str (float_repr : float → string) (v : pyval) : string :=
  match v with
  | VStr s => s
  | VInt z => str_of_int z
  | VFloat f => float_repr f
  end.

(** [v >= c] for a float [c] strictly between 0 and 1: an integer is
    compared by its value, and text cannot be compared with a number. *)
Definition val_ge (v : pyval) (c : float) : result bool :=
  match v with
  | VFloat f => Ok (PyFloat.ge f c)
  | VInt z => Ok (1 <=? z)
  | VStr _ =>
      Raise (TypeError "'>=' not supported between instances of 'str' and 'float'")
  end.

Module PeriodStatePrompt.

Section Prompt.

Variable float_repr : float → string.

Definition _get_behavior_guidance (physical psychological : pyval)
    : result string :=
  let guidance : list string := [] in
  hi ← val_ge physical 0.7%float;
  guidance ←
    (if hi : bool then
       Ok (guidance ++ ["• 你可能会感到身体不适，回复时可以表现得需要更多休息和理解"])
     else
       mid ← val_ge physical 0.4%float;
       if mid : bool then
         Ok (guidance ++ ["• 你可能会感到些许疲惫，回复时可以适当放慢节奏"])
       else
         Ok (guidance ++ ["• 你感觉身体状态良好，可以积极热情地互动"]));
  hi ← val_ge psychological 0.6%float;
  guidance ←
    (if hi : bool then
       Ok (guidance ++ ["• 你的情绪比较敏感，回复时需要更多耐心，避免冲突"])
     else
       mid ← val_ge psychological 0.3%float;
       if mid : bool then
         Ok (guidance ++ ["• 你的情绪有些波动，回复时保持平和心态"])
       else
         Ok (guidance ++ ["• 你情绪稳定乐观，可以愉快地交流"]));
  Ok (join nl guidance).

Definition _generate_prompt (state : loc) : M string :=
  d ← deref state;
  lift (
    stage_name ← dict_getitem d "stage_name_cn";
    physical ← dict_getitem d "physical_impact";
    psychological ← dict_getitem d "psychological_impact";
    description ← dict_getitem d "description";
    behavior_guidance ← _get_behavior_guidance physical psychological;
    let prompt :=
      nl +:+ "你当前处于月经周期的【" +:+ py_str float_repr stage_name +:+ "】。" +:+ nl
      +:+ "生理影响程度: " +:+ py_str float_repr physical
      +:+ "/1.0，心理影响程度: " +:+ py_str float_repr psychological +:+ "/1.0。" +:+ nl
      +:+ "当前状态特点: " +:+ py_str float_repr description +:+ nl
      +:+ nl
      +:+ behavior_guidance +:+ nl
      +:+ nl
      +:+ "请根据以上状态特点，自然地调整你的回复风格和行为表现，但不要刻意提及月经相关话题，保持对话的自然流畅。"
      +:+ nl in
    Ok (strip prompt)).

(** The part of [execute] inside [try:]. *)
Definition execute_body (cfg : PluginConfig) (today : PyDate.date) : M string :=
  let last_period_date := get_config (cycle_last_period_date cfg) "" in
  let cycle_length := get_config (cycle_cycle_length cfg) 28 in
  let enabled := get_config (plugin_enabled cfg) false in
  if negb enabled || negb (str_truthy last_period_date) then mret ""
  else
    state ← calculate_current_state today last_period_date cycle_length;
    prompt ← _generate_prompt state;
    logger LvlDebug ("周期状态提示词: " +:+ prompt);;
    mret prompt.

Definition execute (cfg : PluginConfig) (today : PyDate.date) : M string :=
  try_except (execute_body cfg today) is_Exception
    (fun e =>
       logger LvlError ("生成周期状态提示词失败: " +:+ exn_str e);;
       mret "").

End Prompt.

End PeriodStatePrompt.

Module PeriodStatusCommand.

Section Command.

Variable float_repr : float → string.

Definition stage_emoji : gmap string string :=
  list_to_map
    [ ("menstrual", "🩸"); ("follicular", "🌱");
      ("ovulation", "🥚"); ("luteal", "🍂") ].

Definition _generate_status_report (state : loc) : M string :=
  d ← deref state;
  lift (
    stage ← dict_getitem d "stage";
    let emoji :=
      match stage with
      | VStr s => dict_get stage_emoji s "❓"
      | _ => "❓"
      end in
    stage_name_cn ← dict_getitem d "stage_name_cn";
    current_day ← dict_getitem d "current_day";
    cycle_length ← dict_getitem d "cycle_length";
    physical_impact ← dict_getitem d "physical_impact";
    psychological_impact ← dict_getitem d "psychological_impact";
    description ← dict_getitem d "description";
    let report :=
      nl +:+ emoji +:+ " 月经周期状态报告" +:+ nl
      +:+ "━━━━━━━━━━━━━━━━━━" +:+ nl
      +:+ "📅 当前阶段: " +:+ py_str float_repr stage_name_cn +:+ nl
      +:+ "🔢 周期第 " +:+ py_str float_repr current_day +:+ " 天 / "
      +:+ py_str float_repr cycle_length +:+ " 天" +:+ nl
      +:+ nl
      +:+ "💊 生理影响: " +:+ py_str float_repr physical_impact +:+ "/1.0" +:+ nl
      +:+ "💭 心理影响: " +:+ py_str float_repr psychological_impact +:+ "/1.0" +:+ nl
      +:+ nl
      +:+ "📝 状态描述:" +:+ nl
      +:+ py_str float_repr description +:+ nl
      +:+ "━━━━━━━━━━━━━━━━━━" +:+ nl
      +:+ "💡 提示: 这些状态会影响我的回复风格和行为表现" +:+ nl
      +:+ "        " in
    Ok (strip report)).

Definition msg_not_enabled : string := "❌ 月经周期插件未启用".
Definition msg_not_configured : string := "❌ 请先配置上次月经开始日期".
Definition msg_failed : string := "❌ 查询状态失败，请检查配置".

(** The part of [execute] inside [try:]. *)
Definition execute_body (cfg : PluginConfig) (today : PyDate.date)
    : M (bool * string * bool) :=
  let last_period_date := get_config (cycle_last_period_date cfg) "" in
  let cycle_length := get_config (cycle_cycle_length cfg) 28 in
  let enabled := get_config (plugin_enabled cfg) false in
  if negb enabled then
    send_text msg_not_enabled;;
    mret (true, "插件未启用", true)
  else if negb (str_truthy last_period_date) then
    send_text msg_not_configured;;
    mret (true, "未配置月经日期", true)
  else
    state ← calculate_current_state today last_period_date cycle_length;
    report ← _generate_status_report state;
    send_text report;;
    mret (true, "发送周期状态报告", true).

Definition execute (cfg : PluginConfig) (today : PyDate.date)
    : M (bool * string * bool) :=
  try_except (execute_body cfg today) is_Exception
    (fun e =>
       logger LvlError ("查询周期状态失败: " +:+ exn_str e);;
       send_text msg_failed;;
       mret (false, "查询失败: " +:+ exn_str e, true)).

End Command.

End PeriodStatusCommand.

(** ** The startup handler and the registration *)

(** [HandlerResult(success=..., continue_process=...)] *)
Record HandlerResult : Type := {
  success : bool;
  continue_process : bool
}.

Module PeriodStateUpdateHandler.

(** The part of [execute] inside [try:]. *)
Definition execute_body (cfg : PluginConfig) : M unit :=
  let last_period_date := get_config (cycle_last_period_date cfg) "" in
  let cycle_length := get_config (cycle_cycle_length cfg) 28 in
  let enabled := get_config (plugin_enabled cfg) false in
  if enabled && str_truthy last_period_date then
    logger LvlInfo "月经周期状态管理器初始化完成"
  else if enabled then
    logger LvlWarning "月经周期插件已启用但未配置月经开始日期"
  else mret tt.

(** [params] is not read. *)
Definition execute (cfg : PluginConfig) (params : pydict) : M HandlerResult :=
  try_except (execute_body cfg) is_Exception
    (fun e => logger LvlError ("周期状态管理器初始化失败: " +:+ exn_str e));;
  mret {| success := true; continue_process := true |}.

End PeriodStateUpdateHandler.

(** The classes a plugin registers, each standing for the pair of its
    component info and the class. *)
Inductive Component : Type :=
  | PeriodStateUpdateHandlerComponent
  | PeriodStatePromptComponent
  | PeriodStatusCommandComponent.

Module MofoxPeriodPlugin.

Definition get_plugin_components (cfg : PluginConfig) : list Component :=
  let components := [] in
  let components := components ++ [PeriodStateUpdateHandlerComponent] in
  if get_config (plugin_enabled cfg) false then
    let components := components ++ [PeriodStatePromptComponent] in
    let components := components ++ [PeriodStatusCommandComponent] in
    components
  else components.

End MofoxPeriodPlugin.

(** ** Notions used in the statements *)

(** The stage lines 39 to 46 of the source assign to a day index. *)
Definition stage_at (current_day : Z) : string :=
  if current_day <=? 5 then "menstrual"
  else if current_day <=? 13 then "follicular"
  else if current_day =? 14 then "ovulation"
  else "luteal".

(** The dictionary lines 51 to 59 build. *)
Definition state_dict (stage : string) (current_day cycle_length : Z)
    (physical_impact psychological_impact : float) : pydict :=
  list_to_map
    [ ("stage", VStr stage);
      ("current_day", VInt current_day);
      ("cycle_length", VInt cycle_length);
      ("physical_impact", VFloat physical_impact);
      ("psychological_impact", VFloat psychological_impact);
      ("stage_name_cn", VStr (_get_stage_name_cn stage));
      ("description", VStr (_get_stage_description stage)) ].

Definition STATE_KEYS : gset string :=
  list_to_set
    [ "stage"; "current_day"; "cycle_length"; "physical_impact";
      "psychological_impact"; "stage_name_cn"; "description" ].

(** The machine after a computed state [d] was stored on the date
    [today]: a new object at the end of the heap, the manager pointing
    at it. *)
Definition stored (today : PyDate.date) (d : pydict) (m : Machine) : Machine :=
  {| state_manager :=
       {| last_calculated_date := Some today;
          current_state := Some (length (heap m)) |};
     heap := heap m ++ [d]; log := log m; outbox := outbox m |}.

(** The machine after the record of a malformed date was logged. *)
Definition logged_bad_date (last_period_date : string) (m : Machine) : Machine :=
  {| state_manager := state_manager m; heap := heap m;
     log := log m ++
       [(LvlError, "无效的日期格式: " +:+ last_period_date +:+ ", 使用默认值")];
     outbox := outbox m |}.

(** The steps of [calculate_current_state] after the reference date is
    known (lines 35 to 62). *)
Definition compute_from (today last_date : PyDate.date) (cycle_length : Z)
    : M loc :=
  let days_passed := today - last_date in
  r ← lift (int_mod days_passed cycle_length);
  let current_day := r + 1 in
  '(physical_impact, psychological_impact) ←
    lift (_calculate_impacts (stage_at current_day) current_day cycle_length);
  l ← alloc (state_dict (stage_at current_day) current_day cycle_length
               physical_impact psychological_impact);
  set_current_state (Some l);;
  set_last_calculated_date (Some today);;
  mret l.

(** Integers from [lo] to [hi]. *)
Definition Zrange (lo hi : Z) : list Z :=
  map (fun i => lo + Z.of_nat i) (seq 0 (Z.to_nat (hi + 1 - lo))).

(** A newly constructed manager in a host that has done nothing yet. *)
Definition fresh_machine : Machine :=
  {| state_manager := PeriodStateManager_init;
     heap := []; log := []; outbox := [] |}.

(** 2024-05-10, the date the worked examples run on. *)
Definition example_today : PyDate.date := PyDate.ymd2ord 2024 5 10.

(** A stand-in for [repr] in the worked examples. *)
Definition example_repr (x : float) : string :=
  if PrimFloat.ltb x 0 then "-" else "+".

(** The fenceposts of the stage selection as the specification lists
    them. *)
Definition fenceposts (d : Z) (stage : string) : Prop :=
  (1 <= d <= 5 → stage = "menstrual") ∧
  (6 <= d <= 13 → stage = "follicular") ∧
  (d = 14 → stage = "ovulation") ∧
  (14 < d → stage = "luteal").

(** [0 <= x <= 1] on binary64 numbers. *)
Definition in_unit_interval (x : float) : bool :=
  PrimFloat.leb 0 x && PrimFloat.leb x 1.

(** The binary64 number nearest to [k / 100], for [0 <= k < 2 ^ 53]:
    one IEEE division of two numbers that binary64 holds exactly. *)
Definition hundredths (k : Z) : float :=
  (PrimFloat.of_uint63 (Uint63Axioms.of_Z k) / 100)%float.

(** The [k] from 0 to 100 with [hundredths k] equal to [x], or -1. *)
Definition hundredths_index (x : float) : Z :=
  match List.find (fun k => PrimFloat.eqb (hundredths k) x) (Zrange 0 100) with
  | Some k => k
  | None => -1
  end.

(** *** The impact computation as the specification words it *)

Module Spec.

Inductive Stage : Type := Menstrual | Follicular | Ovulation | Luteal.

Definition stage_key (s : Stage) : string :=
  match s with
  | Menstrual => "menstrual"
  | Follicular => "follicular"
  | Ovulation => "ovulation"
  | Luteal => "luteal"
  end.

(** Base pairs per stage, (physical, psychological). *)
Definition base_pair (s : Stage) : float * float :=
  match s with
  | Menstrual => (0.8, 0.7)
  | Follicular => (0.1, 0.1)
  | Ovulation => (0.4, 0.2)
  | Luteal => (0.6, 0.5)
  end%float.

(** The intensity of a stage on a day, for the two stages that have
    one. *)
Definition intensity (s : Stage) (dayIndex cycleLength : Z)
    : option (result float) :=
  match s with
  | Menstrual =>
      Some (q ← PyFloat.int_true_divide (dayIndex - 1) 5;
            Ok (1.0 - q * 0.3)%float)
  | Luteal =>
      let dayInStage := dayIndex - 14 in
      let totalDays := cycleLength - 14 in
      Some (q ← PyFloat.int_true_divide dayInStage totalDays;
            Ok (0.7 + q * 0.3)%float)
  | Follicular | Ovulation => None
  end.

(** The ceilings of the luteal stage. *)
Definition ceiling (s : Stage) : option (float * float) :=
  match s with
  | Luteal => Some (0.8, 0.7)%float
  | _ => None
  end.

(** A value capped at a ceiling: the ceiling where the value exceeds
    it, the value itself otherwise. *)
Definition capped (x : float) (c : option float) : float :=
  match c with
  | Some c => if PrimFloat.ltb c x then c else x
  | None => x
  end.

(** The impacts before rounding: the base pair, times the intensity
    where the stage has one, capped where the stage has ceilings. *)
Definition unrounded_impacts (s : Stage) (dayIndex cycleLength : Z)
    : result (float * float) :=
  let '(physical, psychological) := base_pair s in
  scaled ←
    match intensity s dayIndex cycleLength with
    | Some i => i ← i; Ok ((physical * i)%float, (psychological * i)%float)
    | None => Ok (physical, psychological)
    end;
  Ok (capped (fst scaled) (fst <$> ceiling s),
      capped (snd scaled) (snd <$> ceiling s)).

(** [k] is the integer nearest to the quotient [n / d] of a positive
    [d], the even one of the two when [n / d] lies halfway. *)
Definition nearest_integer (n d k : Z) : Prop :=
  Z.abs (2 * (n - k * d)) <= d ∧
  (Z.abs (2 * (n - k * d)) = d → Z.even k = true).

(** [r] is [x] rounded to two decimal places: for a finite
    [x = ± m * 2 ^ e] other than zero, the binary64 number nearest to
    [± k / 100], where [k] is the integer nearest to
    [100 * m * 2 ^ e]; a zero, an infinity and NaN stay. *)
Definition rounded_to_2_decimals (x r : float) : Prop :=
  match Prim2SF x with
  | S754_finite s m e =>
      ∃ k, nearest_integer (100 * Zpos m * 2 ^ Z.max 0 e) (2 ^ Z.max 0 (- e)) k ∧
           r = PyFloat.of_ratio s k 100
  | _ => r = x
  end.

End Spec.

(** *** Notions used in the further properties *)

(** The impacts of day [d] of a cycle of [cl] days, as a computing
    call obtains them. *)
Definition impacts_on_day (cl d : Z) : result (float * float) :=
  _calculate_impacts (stage_at d) d cl.

(** Both impacts lie between 0.1 and the menstrual base value, and the
    psychological impact does not exceed the physical one. *)
Definition impacts_within_bases (cl d : Z) : bool :=
  match impacts_on_day cl d with
  | Ok (p, q) =>
      PrimFloat.leb 0.1 p && PrimFloat.leb p 0.8
      && PrimFloat.leb 0.1 q && PrimFloat.leb q 0.7 && PrimFloat.leb q p
  | Raise _ => false
  end.

(** From day [d] to day [d + 1] neither impact decreases. *)
Definition impacts_do_not_decrease (cl d : Z) : bool :=
  match impacts_on_day cl d, impacts_on_day cl (d + 1) with
  | Ok (p, q), Ok (p', q') => PrimFloat.leb p p' && PrimFloat.leb q q'
  | _, _ => false
  end.

(** From day [d] to day [d + 1] both impacts decrease. *)
Definition impacts_decrease (cl d : Z) : bool :=
  match impacts_on_day cl d, impacts_on_day cl (d + 1) with
  | Ok (p, q), Ok (p', q') => PrimFloat.ltb p' p && PrimFloat.ltb q' q
  | _, _ => false
  end.

(** The two guidance lines by day index: which of the three lines for
    the physical impact and which of the three for the psychological
    impact. *)
Definition guidance_for_day (d : Z) : string :=
  let physical :=
    if d <=? 3 then "• 你可能会感到身体不适，回复时可以表现得需要更多休息和理解"
    else if (d <=? 5) || (14 <=? d) then "• 你可能会感到些许疲惫，回复时可以适当放慢节奏"
    else "• 你感觉身体状态良好，可以积极热情地互动" in
  let psychological :=
    if d <=? 3 then "• 你的情绪比较敏感，回复时需要更多耐心，避免冲突"
    else if (d <=? 5) || (15 <=? d) then "• 你的情绪有些波动，回复时保持平和心态"
    else "• 你情绪稳定乐观，可以愉快地交流" in
  physical +:+ nl +:+ psychological.

Definition guidance_matches_day (cl d : Z) : bool :=
  match impacts_on_day cl d with
  | Ok (p, q) =>
      match PeriodStatePrompt._get_behavior_guidance (VFloat p) (VFloat q) with
      | Ok text => String.eqb text (guidance_for_day d)
      | Raise _ => false
      end
  | Raise _ => false
  end.

(** [check cl d] for every cycle length from [lo] to [hi] and every day
    from [first] to [cl - margin]. *)
Definition for_all_days (lo hi first margin : Z) (check : Z → Z → bool) : bool :=
  forallb (fun cl => forallb (check cl) (Zrange first (cl - margin))) (Zrange lo hi).

(** The prompt of a state, as returned: the template of
    [_generate_prompt] without the line breaks around it. *)
Definition prompt_text (float_repr : float → string) (stage : string)
    (p q : float) (guidance : string) : string :=
  "你当前处于月经周期的【" +:+ _get_stage_name_cn stage +:+ "】。" +:+ nl
  +:+ "生理影响程度: " +:+ float_repr p
  +:+ "/1.0，心理影响程度: " +:+ float_repr q +:+ "/1.0。" +:+ nl
  +:+ "当前状态特点: " +:+ _get_stage_description stage +:+ nl
  +:+ nl
  +:+ guidance +:+ nl
  +:+ nl
  +:+ "请根据以上状态特点，自然地调整你的回复风格和行为表现，但不要刻意提及月经相关话题，保持对话的自然流畅。".

(** The report of a state, as sent: the template of
    [_generate_status_report] without the blanks around it. *)
Definition report_text (float_repr : float → string) (stage : string)
    (d cl : Z) (p q : float) : string :=
  dict_get PeriodStatusCommand.stage_emoji stage "❓" +:+ " 月经周期状态报告" +:+ nl
  +:+ "━━━━━━━━━━━━━━━━━━" +:+ nl
  +:+ "📅 当前阶段: " +:+ _get_stage_name_cn stage +:+ nl
  +:+ "🔢 周期第 " +:+ str_of_int d +:+ " 天 / " +:+ str_of_int cl +:+ " 天" +:+ nl
  +:+ nl
  +:+ "💊 生理影响: " +:+ float_repr p +:+ "/1.0" +:+ nl
  +:+ "💭 心理影响: " +:+ float_repr q +:+ "/1.0" +:+ nl
  +:+ nl
  +:+ "📝 状态描述:" +:+ nl
  +:+ _get_stage_description stage +:+ nl
  +:+ "━━━━━━━━━━━━━━━━━━" +:+ nl
  +:+ "💡 提示: 这些状态会影响我的回复风格和行为表现".

(** [strip] leaves exactly [r] of [s], and [r] is not empty. *)
Definition rstrips_to (s r : string) : Prop := rstrip s = r ∧ r ≠ "".

(** A machine holding nothing but a heap. *)
Definition heap_only (h : list pydict) : Machine :=
  {| state_manager := PeriodStateManager_init; heap := h; log := []; outbox := [] |}.

(** Two machines that differ in their logs at most. *)
Definition same_but_log (m1 m2 : Machine) : Prop :=
  state_manager m1 = state_manager m2 ∧ heap m1 = heap m2 ∧
  outbox m1 = outbox m2.

(** The configuration of the worked examples: enabled, a reference date
    thirteen days before [example_today], the default cycle length. *)
Definition example_config : PluginConfig :=
  {| plugin_enabled := Some true;
     cycle_last_period_date := Some "2024-04-27";
     cycle_cycle_length := None |}.

(** The same with a cycle length of zero. *)
Definition example_config_zero : PluginConfig :=
  {| plugin_enabled := Some true;
     cycle_last_period_date := Some "2024-04-27";
     cycle_cycle_length := Some 0 |}.

(** * Properties *)

(** ** The Python runtime *)

Lemma overflow_threshold_gt_1 : 1 < PyFloat.overflow_threshold.
Proof. apply Z.ltb_lt. vm_compute. reflexivity. Qed.

(** A quotient of magnitude at most one is computed without error. *)
Lemma int_true_divide_small (a b : Z) :
  b ≠ 0 → Z.abs a <= Z.abs b →
  PyFloat.int_true_divide a b
  = Ok (PyFloat.of_ratio (xorb (a <? 0) (b <? 0)) (Z.abs a) (Z.abs b)).
Proof.
  intros Hb Hab. unfold PyFloat.int_true_divide.
  destruct (Z.eqb_spec b 0) as [|_]; [contradiction|].
  pose proof overflow_threshold_gt_1 as HT.
  destruct (Z.leb_spec (PyFloat.overflow_threshold * Z.abs b) (Z.abs a)) as [Hle|_];
    [|reflexivity].
  exfalso. nia.
Qed.

(** [strptime] fails with [ValueError] only. *)
Lemma make_date_raises (y mo d : Z) (e : exn) :
  PyDate.make_date y mo d = Raise e → is_ValueError e = true.
Proof.
  unfold PyDate.make_date. intros H.
  repeat match type of H with
         | (if ?c then _ else _) = _ => destruct c
         end; inversion H; reflexivity.
Qed.

Lemma strptime_ymd_raises (s : string) (e : exn) :
  PyDate.strptime_ymd s = Raise e → is_ValueError e = true.
Proof.
  unfold PyDate.strptime_ymd, PyDate.no_match. intros H.
  repeat match type of H with
         | match ?x with _ => _ end = _ => destruct x eqn:?
         end;
    first [ injection H as <-; reflexivity
          | eapply make_date_raises; eassumption ].
Qed.

(** Decimal digits of other scripts count where the format has [\d]:
    in the year and after a leading 1 or 2 of the day, not in the
    month. *)
Example strptime_ymd_other_digits :
  PyDate.strptime_ymd "٢٠٢٤-04-27" = PyDate.strptime_ymd "2024-04-27" ∧
  PyDate.strptime_ymd "2024-04-2７" = PyDate.strptime_ymd "2024-04-27" ∧
  PyDate.strptime_ymd "2024-٠٤-27" = PyDate.no_match ∧
  PyDate.strptime_ymd "2024-04-٢٧" = PyDate.no_match.
Proof. repeat split; vm_compute; reflexivity. Qed.

(** ** [_calculate_impacts], stage by stage *)

Lemma impacts_menstrual (d cl : Z) :
  _calculate_impacts "menstrual" d cl
  = (q ← PyFloat.int_true_divide (d - 1) 5;
     Ok (PyFloat.round2 (0.8 * (1.0 - q * 0.3))%float,
         PyFloat.round2 (0.7 * (1.0 - q * 0.3))%float)).
Proof.
  unfold _calculate_impacts.
  change (dict_getitem base_impacts "menstrual") with (Ok (0.8, 0.7)%float).
  cbn [mbind result_bind String.eqb Ascii.eqb Bool.eqb].
  destruct (PyFloat.int_true_divide (d - 1) 5); reflexivity.
Qed.

Lemma impacts_luteal (d cl : Z) :
  _calculate_impacts "luteal" d cl
  = (q ← PyFloat.int_true_divide (d - 14) (cl - 14);
     Ok (PyFloat.round2 (PyFloat.min (0.6 * (0.7 + q * 0.3)) 0.8)%float,
         PyFloat.round2 (PyFloat.min (0.5 * (0.7 + q * 0.3)) 0.7)%float)).
Proof.
  unfold _calculate_impacts.
  change (dict_getitem base_impacts "luteal") with (Ok (0.6, 0.5)%float).
  cbn [mbind result_bind String.eqb Ascii.eqb Bool.eqb].
  destruct (PyFloat.int_true_divide (d - 14) (cl - 14)); reflexivity.
Qed.

Lemma impacts_follicular (d cl : Z) :
  _calculate_impacts "follicular" d cl
  = Ok (PyFloat.round2 0.1, PyFloat.round2 0.1).
Proof. reflexivity. Qed.

Lemma impacts_ovulation (d cl : Z) :
  _calculate_impacts "ovulation" d cl
  = Ok (PyFloat.round2 0.4, PyFloat.round2 0.2).
Proof. reflexivity. Qed.

(** ** [calculate_current_state], path by path *)

Lemma calculate_hit (today : PyDate.date) (s : string) (cl : Z) (m : Machine) (l : loc) :
  cached (state_manager m) (heap m) today = Some l →
  calculate_current_state today s cl m = (Ok l, m).
Proof.
  intros H. unfold calculate_current_state.
  unfold mbind, M_bind, get_manager, get_heap; cbn beta iota. rewrite H. reflexivity.
Qed.

Lemma calculate_miss (today : PyDate.date) (s : string) (cl : Z) (m : Machine) :
  cached (state_manager m) (heap m) today = None →
  calculate_current_state today s cl m =
  match PyDate.strptime_ymd s with
  | Ok last_date => compute_from today last_date cl m
  | Raise _ =>
      match PyDate.sub_days today 14 with
      | Ok last_date => compute_from today last_date cl (logged_bad_date s m)
      | Raise e => (Raise e, logged_bad_date s m)
      end
  end.
Proof.
  intros H. unfold calculate_current_state.
  unfold mbind, M_bind, get_manager, get_heap; cbn beta iota. rewrite H.
  unfold try_except, lift.
  destruct (PyDate.strptime_ymd s) as [last|e] eqn:Hp.
  - reflexivity.
  - rewrite (strptime_ymd_raises _ _ Hp).
    unfold logger; cbn beta iota.
    destruct (PyDate.sub_days today 14); reflexivity.
Qed.

Lemma compute_from_ok (today last : PyDate.date) (cl : Z) (m : Machine) (p q : float) :
  cl ≠ 0 →
  _calculate_impacts (stage_at ((today - last) mod cl + 1)) ((today - last) mod cl + 1) cl
    = Ok (p, q) →
  compute_from today last cl m
  = (Ok (length (heap m)),
     stored today (state_dict (stage_at ((today - last) mod cl + 1))
                     ((today - last) mod cl + 1) cl p q) m).
Proof.
  intros Hcl Hi. unfold compute_from, int_mod, lift.
  destruct (Z.eqb_spec cl 0) as [|_]; [contradiction|].
  unfold mbind, M_bind; cbn beta iota. rewrite Hi. reflexivity.
Qed.

Lemma compute_from_inv (today last : PyDate.date) (cl : Z) (m m' : Machine) (l : loc) :
  compute_from today last cl m = (Ok l, m') →
  cl ≠ 0 ∧ l = length (heap m) ∧
  ∃ p q,
    _calculate_impacts (stage_at ((today - last) mod cl + 1))
      ((today - last) mod cl + 1) cl = Ok (p, q) ∧
    m' = stored today (state_dict (stage_at ((today - last) mod cl + 1))
                         ((today - last) mod cl + 1) cl p q) m.
Proof.
  unfold compute_from, int_mod, lift.
  destruct (Z.eqb_spec cl 0) as [|Hcl];
    unfold mbind, M_bind; cbn beta iota; [discriminate|].
  destruct (_calculate_impacts _ _ cl) as [[p q]|e]; [|discriminate].
  intros H. injection H as <- <-. eauto 10.
Qed.

(** ** The stage selection and the state dictionary *)

Lemma stage_at_fenceposts (d : Z) : fenceposts d (stage_at d).
Proof.
  unfold fenceposts, stage_at.
  destruct (Z.leb_spec d 5), (Z.leb_spec d 13), (Z.eqb_spec d 14);
    repeat split; intros; first [reflexivity | lia].
Qed.

Lemma stage_at_luteal (d : Z) : stage_at d = "luteal" ↔ 15 <= d.
Proof.
  unfold stage_at.
  destruct (Z.leb_spec d 5), (Z.leb_spec d 13), (Z.eqb_spec d 14);
    split; intros; first [discriminate | reflexivity | lia].
Qed.

Lemma state_dict_stage st d cl p q :
  state_dict st d cl p q !! "stage" = Some (VStr st).
Proof. reflexivity. Qed.

Lemma state_dict_current_day st d cl p q :
  state_dict st d cl p q !! "current_day" = Some (VInt d).
Proof. reflexivity. Qed.

Lemma state_dict_cycle_length st d cl p q :
  state_dict st d cl p q !! "cycle_length" = Some (VInt cl).
Proof. reflexivity. Qed.

Lemma state_dict_physical st d cl p q :
  state_dict st d cl p q !! "physical_impact" = Some (VFloat p).
Proof. reflexivity. Qed.

Lemma state_dict_psychological st d cl p q :
  state_dict st d cl p q !! "psychological_impact" = Some (VFloat q).
Proof. reflexivity. Qed.

Lemma state_dict_stage_name st d cl p q :
  state_dict st d cl p q !! "stage_name_cn" = Some (VStr (_get_stage_name_cn st)).
Proof. reflexivity. Qed.

Lemma state_dict_description st d cl p q :
  state_dict st d cl p q !! "description" = Some (VStr (_get_stage_description st)).
Proof. reflexivity. Qed.

Lemma state_dict_dom st d cl p q : dom (state_dict st d cl p q) = STATE_KEYS.
Proof. reflexivity. Qed.

Lemma state_dict_truthy st d cl p q : dict_truthy (state_dict st d cl p q) = true.
Proof. reflexivity. Qed.

(** ** The cache *)

Lemma stored_lookup (today : PyDate.date) (d : pydict) (m : Machine) :
  heap (stored today d m) !! length (heap m) = Some d.
Proof.
  unfold stored; cbn [heap]. rewrite lookup_app_r by lia.
  rewrite Nat.sub_diag. reflexivity.
Qed.

Lemma cached_stored (today : PyDate.date) (d : pydict) (m : Machine) :
  dict_truthy d = true →
  cached (state_manager (stored today d m)) (heap (stored today d m)) today
  = Some (length (heap m)).
Proof.
  intros Hd. pose proof (stored_lookup today d m) as Hl.
  unfold cached, stored in *.
  cbn [state_manager last_calculated_date current_state heap] in *.
  match goal with
  | |- context [from_option _ _ ?x] => replace x with (Some d) by (symmetry; exact Hl)
  end.
  rewrite Z.eqb_refl. cbn. rewrite Hd. reflexivity.
Qed.

(** Whatever a call returns is what the cache holds for the rest of the
    day. *)
Lemma returned_is_cached (today : PyDate.date) (s : string) (cl : Z)
    (m m1 : Machine) (l : loc) :
  calculate_current_state today s cl m = (Ok l, m1) →
  cached (state_manager m1) (heap m1) today = Some l.
Proof.
  destruct (cached (state_manager m) (heap m) today) as [l0|] eqn:Hc.
  - rewrite (calculate_hit _ _ _ _ _ Hc). intros H. injection H as <- <-. exact Hc.
  - rewrite (calculate_miss _ _ _ _ Hc). intros H.
    assert (∃ last m0, compute_from today last cl m0 = (Ok l, m1)) as (last & m0 & Hk).
    { destruct (PyDate.strptime_ymd s); [eauto|].
      destruct (PyDate.sub_days today 14); [eauto|discriminate]. }
    apply compute_from_inv in Hk as (_ & -> & p & q & _ & ->).
    apply cached_stored, state_dict_truthy.
Qed.

(** ** The calculator on a positive cycle length *)

(** The day index of a positive cycle lies in the cycle. *)
Lemma day_index_range (days_passed cl : Z) :
  0 < cl → 1 <= days_passed mod cl + 1 <= cl.
Proof. intros H. pose proof (Z.mod_pos_bound days_passed cl H). lia. Qed.

(** On a day of the cycle the impacts are computed without error. *)
Lemma impacts_defined (d cl : Z) :
  0 < cl → 1 <= d <= cl →
  ∃ p q, _calculate_impacts (stage_at d) d cl = Ok (p, q).
Proof.
  intros Hcl Hd. unfold stage_at.
  destruct (Z.leb_spec d 5); [|destruct (Z.leb_spec d 13); [|destruct (Z.eqb_spec d 14)]].
  - rewrite impacts_menstrual, int_true_divide_small by lia. eauto.
  - rewrite impacts_follicular. eauto.
  - rewrite impacts_ovulation. eauto.
  - rewrite impacts_luteal, int_true_divide_small by lia. eauto.
Qed.

Lemma compute_from_defined (today last : PyDate.date) (cl : Z) (m : Machine) :
  0 < cl →
  ∃ p q,
    _calculate_impacts (stage_at ((today - last) mod cl + 1))
      ((today - last) mod cl + 1) cl = Ok (p, q) ∧
    compute_from today last cl m
    = (Ok (length (heap m)),
       stored today (state_dict (stage_at ((today - last) mod cl + 1))
                       ((today - last) mod cl + 1) cl p q) m).
Proof.
  intros Hcl.
  destruct (impacts_defined ((today - last) mod cl + 1) cl Hcl
              (day_index_range _ _ Hcl)) as (p & q & Hi).
  exists p, q. split; [exact Hi|]. apply compute_from_ok; [lia|exact Hi].
Qed.


(** C1: for a reference date that parses (before, on or after today) and
    a positive cycle length, a call that computes stores the day index
    [(today - referenceDate) mod cycleLength + 1], and that index lies
    in [1, cycleLength]. *)
Theorem day_index_formula_and_range (m : Machine) (today last_date : PyDate.date)
    (last_period_date : string) (cycle_length : Z) :
  cached (state_manager m) (heap m) today = None →
  PyDate.strptime_ymd last_period_date = Ok last_date →
  0 < cycle_length →
  let current_day := (today - last_date) mod cycle_length + 1 in
  1 <= current_day <= cycle_length ∧
  ∃ m' state,
    calculate_current_state today last_period_date cycle_length m
      = (Ok (length (heap m)), m') ∧
    heap m' !! length (heap m) = Some state ∧
    state !! "current_day" = Some (VInt current_day) ∧
    state !! "cycle_length" = Some (VInt cycle_length).
Proof.
  intros Hmiss Hparse Hcl d. split; [apply day_index_range, Hcl|].
  destruct (compute_from_defined today last_date cycle_length m Hcl)
    as (p & q & _ & Hrun).
  rewrite (calculate_miss _ _ _ _ Hmiss), Hparse, Hrun.
  eexists _, _. split; [reflexivity|]. split; [apply stored_lookup|].
  split; reflexivity.
Qed.

(** C2: the stage a computing call stores follows the fixed fenceposts
    of its day index: 1 to 5 menstrual, 6 to 13 follicular, 14
    ovulation, above 14 luteal; days 5, 6, 13, 14 and 15 fall as
    listed. *)
Theorem stage_follows_fenceposts (m m' : Machine) (today : PyDate.date)
    (last_period_date : string) (cycle_length : Z) (l : loc) :
  cached (state_manager m) (heap m) today = None →
  calculate_current_state today last_period_date cycle_length m = (Ok l, m') →
  (∃ state d stage,
     heap m' !! l = Some state ∧
     state !! "current_day" = Some (VInt d) ∧
     state !! "stage" = Some (VStr stage) ∧
     stage = stage_at d ∧
     fenceposts d stage) ∧
  stage_at 5 = "menstrual" ∧ stage_at 6 = "follicular" ∧
  stage_at 13 = "follicular" ∧ stage_at 14 = "ovulation" ∧
  stage_at 15 = "luteal".
Proof.
  intros Hmiss Hrun. split; [|repeat split; reflexivity].
  rewrite (calculate_miss _ _ _ _ Hmiss) in Hrun.
  assert (∃ last m0, compute_from today last cycle_length m0 = (Ok l, m'))
    as (last & m0 & Hk).
  { destruct (PyDate.strptime_ymd last_period_date); [eauto|].
    destruct (PyDate.sub_days today 14); [eauto|discriminate]. }
  apply compute_from_inv in Hk as (_ & -> & p & q & _ & ->).
  eexists _, _, _. split; [apply stored_lookup|].
  split; [reflexivity|]. split; [reflexivity|].
  split; [reflexivity|apply stage_at_fenceposts].
Qed.


(** C6: a second call on the same calendar date with the same inputs
    returns the very object the first call returned, and leaves the
    heap, the manager, the log and the outbox as the first call left
    them: nothing is computed or stored again. *)
Theorem same_day_call_returns_identical_object (m m1 : Machine)
    (today : PyDate.date) (last_period_date : string) (cycle_length : Z)
    (l : loc) :
  calculate_current_state today last_period_date cycle_length m = (Ok l, m1) →
  calculate_current_state today last_period_date cycle_length m1 = (Ok l, m1).
Proof.
  intros Hfirst. apply calculate_hit.
  exact (returned_is_cached _ _ _ _ _ _ Hfirst).
Qed.

(** C10: once a call has run on a calendar date, a later call on that
    date returns the object cached by the first whatever reference date
    and cycle length it is given: the new arguments are not read, and
    the machine stays as the first call left it. *)
Theorem same_day_call_ignores_new_arguments (m m1 : Machine)
    (today : PyDate.date) (last_period_date last_period_date' : string)
    (cycle_length cycle_length' : Z) (l : loc) :
  calculate_current_state today last_period_date cycle_length m = (Ok l, m1) →
  calculate_current_state today last_period_date' cycle_length' m1 = (Ok l, m1) ∧
  state_manager m1
  = {| last_calculated_date := last_calculated_date (state_manager m1);
       current_state := Some l |} ∧
  ∃ state, heap m1 !! l = Some state.
Proof.
  intros Hfirst.
  pose proof (returned_is_cached _ _ _ _ _ _ Hfirst) as Hc.
  split; [apply calculate_hit, Hc|].
  unfold cached in Hc.
  destruct (state_manager m1) as [[d|] [l0|]]; cbn in *; try discriminate.
  destruct (d =? today); [|discriminate].
  destruct (heap m1 !! l0) as [state|] eqn:Hl; cbn in Hc; [|discriminate].
  destruct (dict_truthy state); [|discriminate].
  injection Hc as <-. split; [reflexivity|]. exists state. exact Hl.
Qed.

(** C9: with a positive cycle length the call never fails with a
    division by zero, and whenever the day index it computes selects the
    luteal stage, that index is at least 15 and at most the cycle
    length, so the divisor [cycle_length - 14] is at least 1 and the
    quotient of the luteal intensity is computed. *)
Theorem luteal_divisor_is_positive (m : Machine) (today : PyDate.date)
    (last_period_date : string) (cycle_length : Z) :
  0 < cycle_length →
  (∀ msg m', calculate_current_state today last_period_date cycle_length m
             ≠ (Raise (ZeroDivisionError msg), m')) ∧
  (∀ last_date,
     let current_day := (today - last_date) mod cycle_length + 1 in
     stage_at current_day = "luteal" →
     15 <= current_day <= cycle_length ∧
     15 <= cycle_length ∧
     1 <= cycle_length - 14 ∧
     ∃ q, PyFloat.int_true_divide (current_day - 14) (cycle_length - 14) = Ok q).
Proof.
  intros Hcl. split.
  - intros msg m'.
    destruct (cached (state_manager m) (heap m) today) as [l|] eqn:Hc.
    + rewrite (calculate_hit _ _ _ _ _ Hc). discriminate.
    + rewrite (calculate_miss _ _ _ _ Hc).
      destruct (PyDate.strptime_ymd last_period_date) as [last|e].
      * destruct (compute_from_defined today last cycle_length m Hcl)
          as (p & q & _ & ->). discriminate.
      * unfold PyDate.sub_days.
        destruct (_ && _).
        -- destruct (compute_from_defined today (today - 14) cycle_length
                       (logged_bad_date last_period_date m) Hcl)
             as (p & q & _ & ->). discriminate.
        -- discriminate.
  - intros last d Hst. apply stage_at_luteal in Hst.
    pose proof (day_index_range (today - last) cycle_length Hcl) as Hr.
    fold d in Hr. repeat split; try lia.
    rewrite int_true_divide_small by lia. eauto.
Qed.

(** ** The impact values *)

(** *** Rounding to two decimals *)

Lemma div_half_even_nearest (n d : Z) :
  0 < d → Spec.nearest_integer n d (PyFloat.div_half_even n d).
Proof.
  intros Hd. unfold Spec.nearest_integer, PyFloat.div_half_even.
  pose proof (Z.div_mod n d ltac:(lia)) as Hn.
  pose proof (Z.mod_pos_bound n d Hd) as Hr.
  destruct (Z.compare_spec (2 * (n mod d)) d) as [Heq|Hlt|Hgt].
  - destruct (Z.even (n / d)) eqn:He.
    + split; [nia|intros _; exact He].
    + split; [nia|intros _].
      rewrite Z.even_add, He. reflexivity.
  - split; [nia|intros H; nia].
  - split; [nia|intros H; nia].
Qed.

(** The nearest integer is unique. *)
Lemma nearest_integer_unique (n d k1 k2 : Z) :
  0 < d → Spec.nearest_integer n d k1 → Spec.nearest_integer n d k2 → k1 = k2.
Proof.
  intros Hd [H1 E1] [H2 E2].
  assert (k1 = k2 ∨ k1 = k2 + 1 ∨ k2 = k1 + 1) as [H|[H|H]] by nia; [exact H| |].
  - assert (Z.abs (2 * (n - k1 * d)) = d) as T1 by nia.
    assert (Z.abs (2 * (n - k2 * d)) = d) as T2 by nia.
    specialize (E1 T1). specialize (E2 T2).
    rewrite H, Z.even_add, E2 in E1. discriminate.
  - assert (Z.abs (2 * (n - k1 * d)) = d) as T1 by nia.
    assert (Z.abs (2 * (n - k2 * d)) = d) as T2 by nia.
    specialize (E1 T1). specialize (E2 T2).
    rewrite H, Z.even_add, E1 in E2. discriminate.
Qed.

Lemma nearest_integer_exact (n : Z) : Spec.nearest_integer n 1 n.
Proof.
  unfold Spec.nearest_integer. replace (n - n * 1) with 0 by ring.
  cbn. split; [lia|discriminate].
Qed.

(** [round(x, 2)] is [x] rounded to two decimal places. *)
Lemma round2_rounds (x : float) : Spec.rounded_to_2_decimals x (PyFloat.round2 x).
Proof.
  unfold Spec.rounded_to_2_decimals, PyFloat.round2.
  destruct (Prim2SF x) as [| | |s m e]; try reflexivity.
  destruct e as [|p|p].
  - exists (Zpos m * 100 * 2 ^ 0). split; [|reflexivity].
    change (Z.max 0 0) with 0. change (Z.max 0 (- 0)) with 0.
    replace (100 * Zpos m * 2 ^ 0) with (Zpos m * 100 * 2 ^ 0) by ring.
    change (2 ^ 0) with 1 at 2. apply nearest_integer_exact.
  - exists (Zpos m * 100 * 2 ^ Zpos p). split; [|reflexivity].
    change (Z.max 0 (Zpos p)) with (Zpos p).
    change (Z.max 0 (- Zpos p)) with 0.
    replace (100 * Zpos m * 2 ^ Zpos p) with (Zpos m * 100 * 2 ^ Zpos p) by ring.
    change (2 ^ 0) with 1. apply nearest_integer_exact.
  - exists (PyFloat.div_half_even (Zpos m * 100) (2 ^ Zpos p)). split; [|reflexivity].
    change (Z.max 0 (Zneg p)) with 0.
    change (Z.max 0 (- Zneg p)) with (Zpos p).
    replace (100 * Zpos m * 2 ^ 0) with (Zpos m * 100) by (change (2 ^ 0) with 1; ring).
    apply div_half_even_nearest. apply Z.pow_pos_nonneg; lia.
Qed.

(** C3: for each of the four stages, every day index and every cycle
    length, [_calculate_impacts] fails exactly as the reference
    definition fails (the quotient of the intensity), and otherwise
    returns its pair (the base pair, scaled by the stage's intensity,
    capped at 0.8 and 0.7 in the luteal stage) rounded to two decimal
    places.  Day 1 of the menstrual stage gives exactly (0.8, 0.7); on
    day 3 the rounding acts, on day 100 of a 28-day cycle the ceilings
    act. *)
Theorem impacts_match_reference (s : Spec.Stage) (current_day cycle_length : Z) :
  match Spec.unrounded_impacts s current_day cycle_length with
  | Ok (x, y) =>
      ∃ p q,
        _calculate_impacts (Spec.stage_key s) current_day cycle_length = Ok (p, q) ∧
        Spec.rounded_to_2_decimals x p ∧ Spec.rounded_to_2_decimals y q
  | Raise e =>
      _calculate_impacts (Spec.stage_key s) current_day cycle_length = Raise e
  end ∧
  _calculate_impacts "menstrual" 1 cycle_length = Ok (0.8, 0.7)%float ∧
  Spec.unrounded_impacts Spec.Menstrual 3 cycle_length
    = Ok (0.70400000000000007, 0.61599999999999999)%float ∧
  _calculate_impacts "menstrual" 3 cycle_length = Ok (0.7, 0.62)%float ∧
  _calculate_impacts "follicular" current_day cycle_length = Ok (0.1, 0.1)%float ∧
  _calculate_impacts "ovulation" current_day cycle_length = Ok (0.4, 0.2)%float ∧
  _calculate_impacts "luteal" 21 28 = Ok (0.51, 0.42)%float ∧
  _calculate_impacts "luteal" 28 28 = Ok (0.6, 0.5)%float ∧
  _calculate_impacts "luteal" 100 28 = Ok (0.8, 0.7)%float.
Proof.
  split.
  - destruct s; cbn [Spec.stage_key]; unfold Spec.unrounded_impacts;
      cbn [Spec.base_pair Spec.intensity Spec.ceiling Spec.capped fmap
           option_fmap option_map fst snd].
    + rewrite impacts_menstrual.
      destruct (PyFloat.int_true_divide (current_day - 1) 5);
        cbn [mbind result_bind fst snd]; [|reflexivity].
      eexists _, _. split; [reflexivity|]. split; apply round2_rounds.
    + cbn [mbind result_bind fst snd]. rewrite impacts_follicular.
      eexists _, _. split; [reflexivity|]. split; apply round2_rounds.
    + cbn [mbind result_bind fst snd]. rewrite impacts_ovulation.
      eexists _, _. split; [reflexivity|]. split; apply round2_rounds.
    + rewrite impacts_luteal.
      destruct (PyFloat.int_true_divide (current_day - 14) (cycle_length - 14));
        cbn [mbind result_bind fst snd]; [|reflexivity].
      eexists _, _. split; [reflexivity|]. split; apply round2_rounds.
  - rewrite !impacts_menstrual.
    repeat apply conj; vm_compute; reflexivity.
Qed.

Lemma Zrange_cases (P : Z → Prop) (lo hi : Z) :
  List.Forall P (Zrange lo hi) → ∀ x, lo <= x <= hi → P x.
Proof.
  intros HF x Hx. rewrite List.Forall_forall in HF. apply HF.
  unfold Zrange. apply List.in_map_iff. exists (Z.to_nat (x - lo)).
  split; [lia|]. apply List.in_seq. lia.
Qed.

(** Enumerates a range of integers and closes each case with [tac]. *)
Ltac for_each_in_range lo hi tac :=
  match goal with
  | |- ∀ z, @?Q z → @?P z =>
      apply (Zrange_cases P lo hi);
      let l := eval vm_compute in (Zrange lo hi) in
      change (Zrange lo hi) with l;
      repeat (apply List.Forall_cons; [cbv beta; tac|]);
      apply List.Forall_nil
  end.

Ltac evaluate_impacts :=
  idtac;
  match goal with
  | |- context [_calculate_impacts ?s ?d ?c] =>
      let r := eval vm_compute in (_calculate_impacts s d c) in
      match r with
      | Ok (?p, ?q) =>
          let kp := eval vm_compute in (hundredths_index p) in
          let kq := eval vm_compute in (hundredths_index q) in
          exists p, q;
          split; [vm_compute; reflexivity|];
          split; [vm_compute; reflexivity|];
          split; [vm_compute; reflexivity|];
          split; [exists kp; split; [lia|vm_compute; reflexivity]|];
          split; [exists kq; split; [lia|vm_compute; reflexivity]|];
          split; vm_compute; reflexivity
      end
  end.

Ltac each_day_of_cycle :=
  idtac;
  match goal with
  | |- ∀ d, 1 <= d <= ?hi → @?R d => for_each_in_range constr:(1) hi evaluate_impacts
  end.

(** Between 20 and 40 days of cycle length, every day of the cycle has
    impacts in the unit interval that are numbers of two decimals: each
    is the binary64 number nearest to some [k / 100], and rounding to
    two decimals leaves it as it is. *)
Lemma impacts_bounded_rounded (cl d : Z) :
  20 <= cl <= 40 → 1 <= d <= cl →
  ∃ p q,
    _calculate_impacts (stage_at d) d cl = Ok (p, q) ∧
    in_unit_interval p = true ∧ in_unit_interval q = true ∧
    (∃ k, 0 <= k <= 100 ∧ p = hundredths k) ∧
    (∃ k, 0 <= k <= 100 ∧ q = hundredths k) ∧
    PyFloat.round2 p = p ∧ PyFloat.round2 q = q.
Proof.
  intros Hcl. revert d. revert cl Hcl.
  for_each_in_range constr:(20) constr:(40) each_day_of_cycle.
Qed.

(** C4: for a cycle length from 20 to 40 and a day index from 1 to the
    cycle length, the two impacts the calculator computes and stores
    both lie in [0, 1] and are numbers of two decimals: each is the
    binary64 number nearest to [k / 100] for an integer [k] from 0 to
    100, and equals itself rounded to two decimals. *)
Theorem impacts_in_unit_interval_with_two_decimals (cycle_length current_day : Z) :
  20 <= cycle_length <= 40 →
  1 <= current_day <= cycle_length →
  ∃ physical_impact psychological_impact,
    _calculate_impacts (stage_at current_day) current_day cycle_length
      = Ok (physical_impact, psychological_impact) ∧
    in_unit_interval physical_impact = true ∧
    in_unit_interval psychological_impact = true ∧
    (∃ k, 0 <= k <= 100 ∧ physical_impact = hundredths k) ∧
    (∃ k, 0 <= k <= 100 ∧ psychological_impact = hundredths k) ∧
    PyFloat.round2 physical_impact = physical_impact ∧
    PyFloat.round2 psychological_impact = psychological_impact ∧
    ∀ (m : Machine) (today last_date : PyDate.date) (last_period_date : string),
      cached (state_manager m) (heap m) today = None →
      PyDate.strptime_ymd last_period_date = Ok last_date →
      (today - last_date) mod cycle_length + 1 = current_day →
      ∃ m' state,
        calculate_current_state today last_period_date cycle_length m
          = (Ok (length (heap m)), m') ∧
        heap m' !! length (heap m) = Some state ∧
        state !! "physical_impact" = Some (VFloat physical_impact) ∧
        state !! "psychological_impact" = Some (VFloat psychological_impact).
Proof.
  intros Hcl Hd.
  destruct (impacts_bounded_rounded cycle_length current_day Hcl Hd)
    as (p & q & Hi & Hp & Hq & Hkp & Hkq & Hrp & Hrq).
  exists p, q. do 7 (split; [assumption|]).
  intros m today last s Hmiss Hparse Hday.
  rewrite (calculate_miss _ _ _ _ Hmiss), Hparse.
  rewrite (compute_from_ok today last cycle_length m p q);
    [|lia|rewrite Hday; exact Hi].
  eexists _, _. split; [reflexivity|]. split; [apply stored_lookup|].
  split; reflexivity.
Qed.

(** ** The entry points *)

Lemma try_except_Exception_returns {A} (body : M A) (handler : exn → M A)
    (m : Machine) :
  (∀ e m1, ∃ a m2, handler e m1 = (Ok a, m2)) →
  ∃ a m', try_except body is_Exception handler m = (Ok a, m').
Proof.
  intros Hh. unfold try_except.
  destruct (body m) as [[a|e] m1]; [eauto|].
  destruct e; cbn [is_Exception]; apply Hh.
Qed.

(** C7: the prompt formatter returns the empty string when the plugin is
    disabled or no reference date is configured, whatever else the
    configuration holds, and when computing the state or generating the
    prompt raises; it always returns a string, never an exception. *)
Theorem prompt_execute_is_contained (float_repr : float → string)
    (cfg : PluginConfig) (today : PyDate.date) (m : Machine) :
  (get_config (plugin_enabled cfg) false = false ∨
   get_config (cycle_last_period_date cfg) "" = "" →
   PeriodStatePrompt.execute float_repr cfg today m = (Ok "", m)) ∧
  (∀ e m1,
     PeriodStatePrompt.execute_body float_repr cfg today m = (Raise e, m1) →
     ∃ m2, PeriodStatePrompt.execute float_repr cfg today m = (Ok "", m2)) ∧
  (∃ text m',
     PeriodStatePrompt.execute float_repr cfg today m = (Ok text, m')).
Proof.
  split; [|split].
  - intros Hoff.
    unfold PeriodStatePrompt.execute, try_except, PeriodStatePrompt.execute_body.
    destruct Hoff as [-> | ->]; [reflexivity|].
    destruct (get_config (plugin_enabled cfg) false); reflexivity.
  - intros e m1 Hbody. unfold PeriodStatePrompt.execute, try_except.
    rewrite Hbody. destruct e; cbn [is_Exception]; eexists; reflexivity.
  - apply try_except_Exception_returns. intros e m1. eexists _, _. reflexivity.
Qed.

(** C8: the status command checks that the plugin is enabled, then that
    a reference date is configured.  Each unmet check sends its own
    message and completes successfully; a failure signal comes exactly
    when the computation or the report raised, then with a third
    message; the command always returns a result, never an exception. *)
Theorem command_execute_outcomes (float_repr : float → string)
    (cfg : PluginConfig) (today : PyDate.date) (m : Machine) :
  let enabled := get_config (plugin_enabled cfg) false in
  let last_period_date := get_config (cycle_last_period_date cfg) "" in
  (enabled = false →
   PeriodStatusCommand.execute float_repr cfg today m
   = (Ok (true, "插件未启用", true),
      snd (send_text PeriodStatusCommand.msg_not_enabled m))) ∧
  (enabled = true → last_period_date = "" →
   PeriodStatusCommand.execute float_repr cfg today m
   = (Ok (true, "未配置月经日期", true),
      snd (send_text PeriodStatusCommand.msg_not_configured m))) ∧
  (PeriodStatusCommand.msg_not_enabled ≠ PeriodStatusCommand.msg_not_configured ∧
   PeriodStatusCommand.msg_not_enabled ≠ PeriodStatusCommand.msg_failed ∧
   PeriodStatusCommand.msg_not_configured ≠ PeriodStatusCommand.msg_failed) ∧
  (∀ e m1,
     PeriodStatusCommand.execute_body float_repr cfg today m = (Raise e, m1) →
     enabled = true ∧ last_period_date ≠ "" ∧
     PeriodStatusCommand.execute float_repr cfg today m
     = (Ok (false, "查询失败: " +:+ exn_str e, true),
        snd (send_text PeriodStatusCommand.msg_failed
               (snd (logger LvlError ("查询周期状态失败: " +:+ exn_str e) m1))))) ∧
  (∀ r m1,
     PeriodStatusCommand.execute_body float_repr cfg today m = (Ok r, m1) →
     PeriodStatusCommand.execute float_repr cfg today m = (Ok r, m1) ∧
     fst (fst r) = true) ∧
  (∃ r m', PeriodStatusCommand.execute float_repr cfg today m = (Ok r, m')).
Proof.
  intros enabled last_period_date.
  split; [|split; [|split; [|split; [|split]]]].
  - intros Hoff.
    unfold PeriodStatusCommand.execute, try_except, PeriodStatusCommand.execute_body.
    fold enabled. rewrite Hoff. reflexivity.
  - intros Hon Hempty.
    unfold PeriodStatusCommand.execute, try_except, PeriodStatusCommand.execute_body.
    fold enabled last_period_date. rewrite Hon, Hempty. reflexivity.
  - repeat split; discriminate.
  - intros e m1 Hbody.
    assert (enabled = true ∧ last_period_date ≠ "") as [Hon Hset].
    { unfold PeriodStatusCommand.execute_body in Hbody.
      fold enabled last_period_date in Hbody.
      destruct enabled; [|discriminate].
      destruct last_period_date; [discriminate|]. split; [reflexivity|discriminate]. }
    split; [exact Hon|]. split; [exact Hset|].
    unfold PeriodStatusCommand.execute, try_except. rewrite Hbody.
    destruct e; reflexivity.
  - intros r m1 Hbody.
    split.
    + unfold PeriodStatusCommand.execute, try_except. rewrite Hbody. reflexivity.
    + unfold PeriodStatusCommand.execute_body in Hbody.
      fold enabled last_period_date in Hbody.
      destruct enabled; [|injection Hbody as <- _; reflexivity].
      destruct last_period_date; [injection Hbody as <- _; reflexivity|].
      cbn [negb str_truthy] in Hbody.
      unfold mbind, M_bind in Hbody.
      destruct (calculate_current_state _ _ _ m) as [[l|e1] m2]; [|discriminate].
      destruct (PeriodStatusCommand._generate_status_report _ l m2) as [[rep|e2] m3];
        [|discriminate].
      cbn in Hbody. injection Hbody as <- _. reflexivity.
  - apply try_except_Exception_returns. intros e m1. eexists _, _. reflexivity.
Qed.

(** ** Worked examples *)

(** C1 at a reference date three weeks after today. *)
Lemma day_index_formula_and_range_witness :
  cached (state_manager fresh_machine) (heap fresh_machine) example_today = None ∧
  PyDate.strptime_ymd "2024-06-01" = Ok (PyDate.ymd2ord 2024 6 1) ∧
  0 < 28 ∧
  1 <= 7 <= 28 ∧
  ∃ m' state,
    calculate_current_state example_today "2024-06-01" 28 fresh_machine
      = (Ok 0%nat, m') ∧
    heap m' !! 0%nat = Some state ∧
    state !! "current_day" = Some (VInt 7) ∧
    state !! "cycle_length" = Some (VInt 28).
Proof.
  split; [reflexivity|]. split; [vm_compute; reflexivity|]. split; [lia|].
  apply (day_index_formula_and_range fresh_machine example_today
           (PyDate.ymd2ord 2024 6 1) "2024-06-01" 28);
    [reflexivity | vm_compute; reflexivity | lia].
Defined.

(** C2 on day 14 of a cycle that began on 2024-04-27. *)
Lemma stage_follows_fenceposts_witness :
  (∃ state d stage,
     heap (snd (calculate_current_state example_today "2024-04-27" 28 fresh_machine))
       !! 0%nat = Some state ∧
     state !! "current_day" = Some (VInt d) ∧
     state !! "stage" = Some (VStr stage) ∧
     stage = stage_at d ∧
     fenceposts d stage) ∧
  stage_at 5 = "menstrual" ∧ stage_at 6 = "follicular" ∧
  stage_at 13 = "follicular" ∧ stage_at 14 = "ovulation" ∧
  stage_at 15 = "luteal".
Proof.
  apply (stage_follows_fenceposts fresh_machine
           (snd (calculate_current_state example_today "2024-04-27" 28 fresh_machine))
           example_today "2024-04-27" 28 0%nat);
    [reflexivity | vm_compute; reflexivity].
Defined.

(** C4 on day 20 of a cycle of 28 days. *)
Lemma impacts_in_unit_interval_with_two_decimals_witness :
  20 <= 28 <= 40 ∧ 1 <= 20 <= 28 ∧
  ∃ physical_impact psychological_impact,
    _calculate_impacts (stage_at 20) 20 28
      = Ok (physical_impact, psychological_impact) ∧
    in_unit_interval physical_impact = true ∧
    in_unit_interval psychological_impact = true ∧
    (∃ k, 0 <= k <= 100 ∧ physical_impact = hundredths k) ∧
    (∃ k, 0 <= k <= 100 ∧ psychological_impact = hundredths k) ∧
    PyFloat.round2 physical_impact = physical_impact ∧
    PyFloat.round2 psychological_impact = psychological_impact.
Proof.
  split; [lia|]. split; [lia|].
  destruct (impacts_in_unit_interval_with_two_decimals 28 20)
    as (p & q & H1 & H2 & H3 & H4 & H5 & H6 & H7 & _); [lia | lia |].
  exists p, q. repeat apply conj; assumption.
Defined.


(** C6 on two calls of one day. *)
Lemma same_day_call_returns_identical_object_witness :
  let first := calculate_current_state example_today "2024-04-27" 28 fresh_machine in
  fst first = Ok 0%nat ∧
  calculate_current_state example_today "2024-04-27" 28 (snd first)
  = (Ok 0%nat, snd first).
Proof.
  split; [vm_compute; reflexivity|].
  apply (same_day_call_returns_identical_object fresh_machine).
  vm_compute; reflexivity.
Defined.

(** C10: the second call names another date and a cycle length of zero,
    and still gets the object of the first. *)
Lemma same_day_call_ignores_new_arguments_witness :
  let first := calculate_current_state example_today "2024-04-27" 28 fresh_machine in
  fst first = Ok 0%nat ∧
  calculate_current_state example_today "2024-05-09" 0 (snd first)
  = (Ok 0%nat, snd first).
Proof.
  split; [vm_compute; reflexivity|].
  apply (same_day_call_ignores_new_arguments fresh_machine _ example_today
           "2024-04-27" "2024-05-09" 28 0 0%nat).
  vm_compute; reflexivity.
Defined.

(** C9 on a cycle of 28 days. *)
Lemma luteal_divisor_is_positive_witness :
  0 < 28 ∧
  (∀ msg m', calculate_current_state example_today "2024-04-20" 28 fresh_machine
             ≠ (Raise (ZeroDivisionError msg), m')) ∧
  15 <= 21 <= 28 ∧ 1 <= 28 - 14 ∧
  ∃ q, PyFloat.int_true_divide (21 - 14) (28 - 14) = Ok q.
Proof.
  split; [lia|].
  destruct (luteal_divisor_is_positive fresh_machine example_today "2024-04-20" 28)
    as [Hno Hlut]; [lia|].
  split; [exact Hno|].
  destruct (Hlut (PyDate.ymd2ord 2024 4 20) eq_refl) as (Hd & _ & Hspan & Hq).
  split; [exact Hd|]. split; [exact Hspan|exact Hq].
Defined.

(** C7 on a configuration whose cycle length is zero: the state
    computation raises and the prompt is empty. *)
Lemma prompt_execute_is_contained_witness :
  let cfg := {| plugin_enabled := Some true;
                cycle_last_period_date := Some "2024-04-27";
                cycle_cycle_length := Some 0 |} in
  fst (PeriodStatePrompt.execute_body example_repr cfg example_today fresh_machine)
  = Raise (ZeroDivisionError "integer modulo by zero") ∧
  ∃ m2, PeriodStatePrompt.execute example_repr cfg example_today fresh_machine
        = (Ok "", m2).
Proof.
  intros cfg. split; [vm_compute; reflexivity|].
  destruct (prompt_execute_is_contained example_repr cfg example_today fresh_machine)
    as (_ & Hcaught & _).
  apply (Hcaught (ZeroDivisionError "integer modulo by zero")
           (snd (PeriodStatePrompt.execute_body example_repr cfg example_today
                   fresh_machine))).
  vm_compute; reflexivity.
Defined.

(** C8 on an enabled plugin without a reference date. *)
Lemma command_execute_outcomes_witness :
  let cfg := {| plugin_enabled := Some true;
                cycle_last_period_date := None;
                cycle_cycle_length := None |} in
  PeriodStatusCommand.execute example_repr cfg example_today fresh_machine
  = (Ok (true, "未配置月经日期", true),
     {| state_manager := PeriodStateManager_init; heap := []; log := [];
        outbox := ["❌ 请先配置上次月经开始日期"] |}).
Proof.
  intros cfg.
  destruct (command_execute_outcomes example_repr cfg example_today fresh_machine)
    as (_ & Hunset & _).
  apply (Hunset eq_refl eq_refl).
Defined.

(** * Further properties of the calculator *)

(** ** What a call does to the machine *)

Lemma compute_from_outcome (today last : PyDate.date) (cl : Z) (m : Machine) :
  (∃ e, compute_from today last cl m = (Raise e, m)) ∨
  (∃ p q,
     compute_from today last cl m
     = (Ok (length (heap m)),
        stored today (state_dict (stage_at ((today - last) mod cl + 1))
                        ((today - last) mod cl + 1) cl p q) m)).
Proof.
  unfold compute_from, int_mod, lift.
  destruct (Z.eqb_spec cl 0) as [|Hcl];
    unfold mbind, M_bind; cbn beta iota; [left; eauto|].
  destruct (_calculate_impacts _ _ cl) as [[p q]|e]; [right|left]; eauto.
Qed.

(** Every call ends in one of three ways: the cached object is returned
    and nothing changes; a new state is stored behind at most one new
    log record; or the call raises after at most one new log record. *)
Lemma calculate_outcome (today : PyDate.date) (s : string) (cl : Z) (m : Machine) :
  (∃ l, cached (state_manager m) (heap m) today = Some l ∧
        calculate_current_state today s cl m = (Ok l, m)) ∨
  (∃ m0 d p q,
     (m0 = m ∨ m0 = logged_bad_date s m) ∧
     calculate_current_state today s cl m
     = (Ok (length (heap m)), stored today (state_dict (stage_at d) d cl p q) m0)) ∨
  (∃ m0 e,
     (m0 = m ∨ m0 = logged_bad_date s m) ∧
     calculate_current_state today s cl m = (Raise e, m0)).
Proof.
  destruct (cached (state_manager m) (heap m) today) as [l|] eqn:Hc.
  - left. exists l. split; [reflexivity|]. apply calculate_hit, Hc.
  - right. rewrite (calculate_miss _ _ _ _ Hc).
    destruct (PyDate.strptime_ymd s) as [last|e0].
    + destruct (compute_from_outcome today last cl m) as [(e & ->)|(p & q & ->)].
      * right. exists m, e. eauto.
      * left. exists m. eauto 10.
    + destruct (PyDate.sub_days today 14) as [last|e1].
      * destruct (compute_from_outcome today last cl (logged_bad_date s m))
          as [(e & ->)|(p & q & ->)].
        -- right. eauto 10.
        -- left. exists (logged_bad_date s m). eauto 10.
      * right. eauto 10.
Qed.

Lemma calculate_frame (today : PyDate.date) (s : string) (cl : Z)
    (m m' : Machine) (r : result loc) :
  calculate_current_state today s cl m = (r, m') →
  outbox m' = outbox m ∧
  (∃ new, heap m' = heap m ++ new ∧ (length new <= 1)%nat) ∧
  (∃ records, log m' = log m ++ records ∧ (length records <= 1)%nat) ∧
  (∀ l state, heap m !! l = Some state → heap m' !! l = Some state).
Proof.
  intros Hrun.
  assert (outbox m' = outbox m ∧
          (∃ new, heap m' = heap m ++ new ∧ (length new <= 1)%nat) ∧
          (∃ records, log m' = log m ++ records ∧ (length records <= 1)%nat))
    as (Ho & (new & Hh & Hn) & Hl).
  { destruct (calculate_outcome today s cl m)
      as [(l & _ & H)|[(m0 & d & p & q & Hm0 & H)|(m0 & e & Hm0 & H)]];
      rewrite H in Hrun; injection Hrun as <- <-.
    - split; [reflexivity|].
      split; exists []; rewrite app_nil_r; cbn; split; (reflexivity || lia).
    - destruct Hm0 as [-> | ->]; cbn.
      + split; [reflexivity|]. split; [eexists; split; [reflexivity|cbn; lia]|].
        exists []. rewrite app_nil_r. cbn. split; [reflexivity|lia].
      + split; [reflexivity|].
        split; eexists; (split; [reflexivity|cbn; lia]).
    - destruct Hm0 as [-> | ->]; cbn.
      + split; [reflexivity|].
        split; exists []; rewrite app_nil_r; cbn; split; (reflexivity || lia).
      + split; [reflexivity|].
        split; [exists []; rewrite app_nil_r; cbn; split; (reflexivity || lia)|].
        eexists; (split; [reflexivity|cbn; lia]). }
  split; [exact Ho|]. split; [eauto|]. split; [exact Hl|].
  intros l state Hls. rewrite Hh. apply lookup_app_l_Some, Hls.
Qed.

(** X1: a call never sends text, never changes or removes an object
    that is already on the heap (it adds at most one), and only adds to
    the log (at most one record). *)
Theorem calculate_only_appends (today : PyDate.date) (s : string) (cl : Z)
    (m m' : Machine) (r : result loc) :
  calculate_current_state today s cl m = (r, m') →
  outbox m' = outbox m ∧
  (∃ new, heap m' = heap m ++ new ∧ (length new <= 1)%nat) ∧
  (∃ records, log m' = log m ++ records ∧ (length records <= 1)%nat) ∧
  (∀ l state, heap m !! l = Some state → heap m' !! l = Some state).
Proof. apply calculate_frame. Qed.

(** X2: a call that raises leaves the manager and the heap as they
    were: a failed computation does not disturb the cache. *)
Theorem calculate_failure_keeps_cache (today : PyDate.date) (s : string) (cl : Z)
    (m m' : Machine) (e : exn) :
  calculate_current_state today s cl m = (Raise e, m') →
  state_manager m' = state_manager m ∧ heap m' = heap m ∧
  ∀ today', cached (state_manager m') (heap m') today'
            = cached (state_manager m) (heap m) today'.
Proof.
  intros Hrun.
  assert (state_manager m' = state_manager m ∧ heap m' = heap m) as [Hs Hh].
  { destruct (calculate_outcome today s cl m)
      as [(l & _ & H)|[(m0 & d & p & q & Hm0 & H)|(m0 & e0 & Hm0 & H)]];
      rewrite H in Hrun; try discriminate.
    injection Hrun as <- <-. destruct Hm0 as [-> | ->]; split; reflexivity. }
  split; [exact Hs|]. split; [exact Hh|]. intros today'. rewrite Hs, Hh. reflexivity.
Qed.

(** ** Edge values of the cycle length *)

(** X3: with a cycle length of zero a call that has to compute raises
    [ZeroDivisionError] from the modulo, stores nothing and leaves the
    manager as it was. *)
Theorem zero_cycle_length_raises (today last_date : PyDate.date)
    (last_period_date : string) (m : Machine) :
  cached (state_manager m) (heap m) today = None →
  PyDate.strptime_ymd last_period_date = Ok last_date →
  calculate_current_state today last_period_date 0 m
  = (Raise (ZeroDivisionError "integer modulo by zero"), m).
Proof.
  intros Hmiss Hparse. rewrite (calculate_miss _ _ _ _ Hmiss), Hparse. reflexivity.
Qed.

(** X4: with a negative cycle length (of a magnitude a float can hold)
    a computing call does not fail: the day index it stores is at most 1
    and above [cycle_length + 1], and the stage is always menstrual. *)
Theorem negative_cycle_length_is_menstrual (today last_date : PyDate.date)
    (last_period_date : string) (cycle_length : Z) (m : Machine) :
  cached (state_manager m) (heap m) today = None →
  PyDate.strptime_ymd last_period_date = Ok last_date →
  - PyFloat.overflow_threshold < cycle_length < 0 →
  let current_day := (today - last_date) mod cycle_length + 1 in
  cycle_length + 1 < current_day <= 1 ∧
  ∃ m' state,
    calculate_current_state today last_period_date cycle_length m
      = (Ok (length (heap m)), m') ∧
    heap m' !! length (heap m) = Some state ∧
    state !! "current_day" = Some (VInt current_day) ∧
    state !! "stage" = Some (VStr "menstrual").
Proof.
  intros Hmiss Hparse Hcl d.
  assert (cycle_length + 1 < d <= 1) as Hd.
  { pose proof (Z.mod_neg_bound (today - last_date) cycle_length) as H.
    unfold d. lia. }
  split; [exact Hd|].
  assert (stage_at d = "menstrual") as Hst.
  { unfold stage_at. destruct (Z.leb_spec d 5); [reflexivity|lia]. }
  assert (∃ p q, _calculate_impacts (stage_at d) d cycle_length = Ok (p, q))
    as (p & q & Hi).
  { rewrite Hst, impacts_menstrual.
    unfold PyFloat.int_true_divide. cbn [Z.eqb].
    pose proof overflow_threshold_gt_1.
    destruct (Z.leb_spec (PyFloat.overflow_threshold * Z.abs 5) (Z.abs (d - 1)));
      [lia|]. cbn [mbind result_bind]. eauto. }
  rewrite (calculate_miss _ _ _ _ Hmiss), Hparse.
  rewrite (compute_from_ok today last_date cycle_length m p q); [|lia|exact Hi].
  fold d. eexists _, _. split; [reflexivity|]. split; [apply stored_lookup|].
  split; [reflexivity|]. rewrite Hst. reflexivity.
Qed.

(** ** From one day to the next *)

(** X5: a call on another calendar date than the cached one computes
    anew: it returns a new object, different from the one returned
    before, and the object returned before stays on the heap
    unchanged. *)
Theorem next_day_call_allocates_new_object (m m1 : Machine)
    (today today' last_date' : PyDate.date)
    (last_period_date last_period_date' : string)
    (cycle_length cycle_length' : Z) (l : loc) :
  calculate_current_state today last_period_date cycle_length m = (Ok l, m1) →
  today' ≠ today →
  PyDate.strptime_ymd last_period_date' = Ok last_date' →
  0 < cycle_length' →
  ∃ l' m2 old new,
    calculate_current_state today' last_period_date' cycle_length' m1
      = (Ok l', m2) ∧
    l' ≠ l ∧
    heap m1 !! l = Some old ∧ heap m2 !! l = Some old ∧
    heap m2 !! l' = Some new ∧
    new !! "current_day"
      = Some (VInt ((today' - last_date') mod cycle_length' + 1)) ∧
    last_calculated_date (state_manager m2) = Some today' ∧
    current_state (state_manager m2) = Some l'.
Proof.
  intros Hfirst Hneq Hparse Hcl.
  pose proof (returned_is_cached _ _ _ _ _ _ Hfirst) as Hc.
  assert (last_calculated_date (state_manager m1) = Some today ∧
          ∃ old, heap m1 !! l = Some old) as [Hdate [old Hold]].
  { unfold cached in Hc.
    destruct (last_calculated_date (state_manager m1)) as [d|]; [|discriminate].
    destruct (current_state (state_manager m1)) as [l0|]; [|discriminate].
    destruct (Z.eqb_spec d today) as [->|]; [|discriminate].
    destruct (heap m1 !! l0) as [old|] eqn:Hl; cbn in Hc; [|discriminate].
    destruct (dict_truthy old); [|discriminate].
    injection Hc as <-. eauto. }
  assert (cached (state_manager m1) (heap m1) today' = None) as Hmiss.
  { unfold cached. rewrite Hdate.
    destruct (current_state (state_manager m1)); [|reflexivity].
    destruct (Z.eqb_spec today today') as [Heq|]; [congruence|reflexivity]. }
  destruct (compute_from_defined today' last_date' cycle_length' m1 Hcl)
    as (p & q & _ & Hrun).
  pose proof (lookup_lt_Some _ _ _ Hold) as Hlt.
  eexists _, _, old, _.
  split; [rewrite (calculate_miss _ _ _ _ Hmiss), Hparse; exact Hrun|].
  split; [lia|]. split; [exact Hold|].
  split; [cbn [stored heap]; apply lookup_app_l_Some, Hold|].
  split; [apply stored_lookup|]. repeat split; reflexivity.
Qed.

(** X6: the computed state repeats with the cycle: on dates a whole
    number of cycles apart, computing calls store equal states. *)
Theorem state_is_periodic (m1 m2 : Machine) (today last_date : PyDate.date)
    (last_period_date : string) (cycle_length k : Z) :
  cached (state_manager m1) (heap m1) today = None →
  cached (state_manager m2) (heap m2) (today + k * cycle_length) = None →
  PyDate.strptime_ymd last_period_date = Ok last_date →
  0 < cycle_length →
  ∃ m1' m2' state,
    calculate_current_state today last_period_date cycle_length m1
      = (Ok (length (heap m1)), m1') ∧
    calculate_current_state (today + k * cycle_length) last_period_date
      cycle_length m2 = (Ok (length (heap m2)), m2') ∧
    heap m1' !! length (heap m1) = Some state ∧
    heap m2' !! length (heap m2) = Some state.
Proof.
  intros Hmiss1 Hmiss2 Hparse Hcl.
  destruct (compute_from_defined today last_date cycle_length m1 Hcl)
    as (p & q & Hi & Hrun1).
  assert ((today + k * cycle_length - last_date) mod cycle_length
          = (today - last_date) mod cycle_length) as Hmod.
  { replace (today + k * cycle_length - last_date)
      with (today - last_date + k * cycle_length) by lia.
    apply Z.mod_add. lia. }
  eexists _, _, _.
  split; [rewrite (calculate_miss _ _ _ _ Hmiss1), Hparse; exact Hrun1|].
  split.
  - rewrite (calculate_miss _ _ _ _ Hmiss2), Hparse.
    apply (compute_from_ok _ _ _ _ p q); [lia|]. rewrite Hmod. exact Hi.
  - rewrite Hmod. split; apply stored_lookup.
Qed.

(** X7: one day later the day index is one more, except after the last
    day of the cycle, which is followed by day 1. *)
Theorem day_index_advances (today last_date : PyDate.date) (cycle_length : Z) :
  0 < cycle_length →
  let d := (today - last_date) mod cycle_length + 1 in
  let d' := (today + 1 - last_date) mod cycle_length + 1 in
  d' = (if d =? cycle_length then 1 else d + 1) ∧
  ∀ (m : Machine) (last_period_date : string),
    cached (state_manager m) (heap m) (today + 1) = None →
    PyDate.strptime_ymd last_period_date = Ok last_date →
    ∃ m' state,
      calculate_current_state (today + 1) last_period_date cycle_length m
        = (Ok (length (heap m)), m') ∧
      heap m' !! length (heap m) = Some state ∧
      state !! "current_day"
        = Some (VInt (if d =? cycle_length then 1 else d + 1)).
Proof.
  intros Hcl d d'.
  assert (d' = (if d =? cycle_length then 1 else d + 1)) as Hd.
  { unfold d, d'.
    pose proof (Z.mod_pos_bound (today - last_date) cycle_length Hcl) as Hb.
    replace (today + 1 - last_date) with ((today - last_date) + 1) by lia.
    rewrite (Z.add_mod (today - last_date) 1 cycle_length) by lia.
    destruct (Z.eqb_spec ((today - last_date) mod cycle_length + 1) cycle_length)
      as [Heq|Hne].
    - destruct (Z.eq_dec cycle_length 1) as [->|H1].
      + rewrite !Z.mod_1_r. reflexivity.
      + rewrite (Z.mod_small 1 cycle_length) by lia.
        rewrite Heq, Z.mod_same by lia. reflexivity.
    - destruct (Z.eq_dec cycle_length 1) as [->|H1].
      + rewrite Z.mod_1_r in Hne. lia.
      + rewrite (Z.mod_small 1 cycle_length) by lia.
        rewrite Z.mod_small by lia. reflexivity. }
  split; [exact Hd|].
  intros m s Hmiss Hparse.
  destruct (compute_from_defined (today + 1) last_date cycle_length m Hcl)
    as (p & q & _ & Hrun).
  rewrite (calculate_miss _ _ _ _ Hmiss), Hparse, Hrun.
  eexists _, _. split; [reflexivity|]. split; [apply stored_lookup|].
  rewrite state_dict_current_day. fold d'. rewrite Hd. reflexivity.
Qed.

(** X8: when the reference date is today, a computing call stores day 1
    of the menstrual stage with impacts (0.8, 0.7), whatever the
    positive cycle length. *)
Theorem reference_date_today_is_day_one (today : PyDate.date)
    (last_period_date : string) (cycle_length : Z) (m : Machine) :
  cached (state_manager m) (heap m) today = None →
  PyDate.strptime_ymd last_period_date = Ok today →
  0 < cycle_length →
  calculate_current_state today last_period_date cycle_length m
  = (Ok (length (heap m)),
     stored today (state_dict "menstrual" 1 cycle_length 0.8 0.7) m).
Proof.
  intros Hmiss Hparse Hcl.
  rewrite (calculate_miss _ _ _ _ Hmiss), Hparse.
  assert ((today - today) mod cycle_length + 1 = 1) as Hd.
  { rewrite Z.sub_diag, Z.mod_0_l by lia. reflexivity. }
  rewrite (compute_from_ok today today cycle_length m 0.8 0.7); [|lia|]; rewrite Hd.
  - reflexivity.
  - change (stage_at 1) with "menstrual". rewrite impacts_menstrual.
    vm_compute. reflexivity.
Qed.


(** ** The stage tables *)

Lemma stage_table_lookup_other {V} (a b c d : V) (stage : string) :
  stage ≠ "menstrual" → stage ≠ "follicular" →
  stage ≠ "ovulation" → stage ≠ "luteal" →
  (list_to_map [("menstrual", a); ("follicular", b);
                ("ovulation", c); ("luteal", d)] : gmap string V) !! stage = None.
Proof.
  intros H1 H2 H3 H4. cbn [list_to_map foldr fst snd].
  rewrite !lookup_insert_ne by congruence. apply lookup_empty.
Qed.

(** X10: for a stage name that is none of the four, [_calculate_impacts]
    raises [KeyError] with that name, whatever the day and the cycle
    length. *)
Theorem impacts_of_unknown_stage_raise (stage : string) (current_day cycle_length : Z) :
  stage ≠ "menstrual" → stage ≠ "follicular" →
  stage ≠ "ovulation" → stage ≠ "luteal" →
  _calculate_impacts stage current_day cycle_length = Raise (KeyError stage).
Proof.
  intros H1 H2 H3 H4. unfold _calculate_impacts, dict_getitem, base_impacts.
  rewrite stage_table_lookup_other by assumption. reflexivity.
Qed.

(** X11: for a stage name that is none of the four, the name and
    description lookups do not fail: they give the placeholder name and
    the empty description, and the report shows the question mark. *)
Theorem unknown_stage_gets_defaults (stage : string) :
  stage ≠ "menstrual" → stage ≠ "follicular" →
  stage ≠ "ovulation" → stage ≠ "luteal" →
  _get_stage_name_cn stage = "未知阶段" ∧
  _get_stage_description stage = "" ∧
  dict_get PeriodStatusCommand.stage_emoji stage "❓" = "❓".
Proof.
  intros H1 H2 H3 H4.
  unfold _get_stage_name_cn, _get_stage_description, dict_get,
    stage_names, stage_descriptions, PeriodStatusCommand.stage_emoji.
  rewrite !stage_table_lookup_other by assumption. repeat split.
Qed.

(** ** The impact values over the cycle *)

Lemma forallb_Zrange (f : Z → bool) (lo hi : Z) :
  forallb f (Zrange lo hi) = true → ∀ x, lo <= x <= hi → f x = true.
Proof.
  intros H x Hx. rewrite List.forallb_forall in H. apply H.
  unfold Zrange. apply List.in_map_iff. exists (Z.to_nat (x - lo)).
  split; [lia|]. apply List.in_seq. lia.
Qed.

Lemma for_all_days_spec (lo hi first margin : Z) (check : Z → Z → bool) :
  for_all_days lo hi first margin check = true →
  ∀ cl d, lo <= cl <= hi → first <= d <= cl - margin → check cl d = true.
Proof.
  intros H cl d Hcl Hd. unfold for_all_days in H.
  apply (forallb_Zrange (check cl) first (cl - margin)); [|exact Hd].
  apply (forallb_Zrange _ lo hi H cl Hcl).
Qed.

(** X12: for every cycle length from 1 to 60 and every day of the
    cycle, both impacts lie between 0.1 and the menstrual base value
    (0.8 physical, 0.7 psychological), and the psychological impact
    never exceeds the physical one. *)
Theorem impacts_within_base_values (cycle_length current_day : Z) :
  1 <= cycle_length <= 60 →
  1 <= current_day <= cycle_length →
  ∃ p q,
    _calculate_impacts (stage_at current_day) current_day cycle_length = Ok (p, q) ∧
    PrimFloat.leb 0.1 p = true ∧ PrimFloat.leb p 0.8 = true ∧
    PrimFloat.leb 0.1 q = true ∧ PrimFloat.leb q 0.7 = true ∧
    PrimFloat.leb q p = true.
Proof.
  intros Hcl Hd.
  assert (impacts_within_bases cycle_length current_day = true) as H.
  { apply (for_all_days_spec 1 60 1 0); [vm_compute; reflexivity|lia|lia]. }
  unfold impacts_within_bases, impacts_on_day in H.
  destruct (_calculate_impacts _ _ _) as [[p q]|]; [|discriminate].
  exists p, q. split; [reflexivity|].
  repeat (apply andb_prop in H as [H ?]). repeat split; assumption.
Qed.

(** X13: over the menstrual stage both impacts fall from each day to
    the next, whatever the cycle length. *)
Theorem menstrual_impacts_decrease (cycle_length current_day : Z) :
  1 <= current_day <= 4 →
  ∃ p q p' q',
    _calculate_impacts "menstrual" current_day cycle_length = Ok (p, q) ∧
    _calculate_impacts "menstrual" (current_day + 1) cycle_length = Ok (p', q') ∧
    PrimFloat.ltb p' p = true ∧ PrimFloat.ltb q' q = true.
Proof.
  intros Hd. rewrite !impacts_menstrual.
  assert (current_day = 1 ∨ current_day = 2 ∨ current_day = 3 ∨ current_day = 4)
    as [-> | [-> | [-> | ->]]] by lia;
    eexists _, _, _, _; (split; [vm_compute; reflexivity|]);
    (split; [vm_compute; reflexivity|]); split; vm_compute; reflexivity.
Qed.

(** X14: over the luteal stage of a cycle of 16 to 60 days neither
    impact falls from one day to the next. *)
Theorem luteal_impacts_do_not_decrease (cycle_length current_day : Z) :
  16 <= cycle_length <= 60 →
  15 <= current_day <= cycle_length - 1 →
  ∃ p q p' q',
    _calculate_impacts "luteal" current_day cycle_length = Ok (p, q) ∧
    _calculate_impacts "luteal" (current_day + 1) cycle_length = Ok (p', q') ∧
    PrimFloat.leb p p' = true ∧ PrimFloat.leb q q' = true.
Proof.
  intros Hcl Hd.
  assert (impacts_do_not_decrease cycle_length current_day = true) as H.
  { apply (for_all_days_spec 16 60 15 1); [vm_compute; reflexivity|lia|lia]. }
  unfold impacts_do_not_decrease, impacts_on_day in H.
  assert (stage_at current_day = "luteal") as Hs by (apply stage_at_luteal; lia).
  assert (stage_at (current_day + 1) = "luteal") as Hs' by (apply stage_at_luteal; lia).
  rewrite Hs, Hs' in H.
  destruct (_calculate_impacts "luteal" current_day _) as [[p q]|]; [|discriminate].
  destruct (_calculate_impacts "luteal" (current_day + 1) _) as [[p' q']|];
    [|discriminate].
  exists p, q, p', q'. apply andb_prop in H as [H1 H2]. repeat split; assumption.
Qed.

(** X15: for every cycle length from 1 to 60 the two guidance lines
    depend on the day index alone: days 1 to 3 get the strongest lines,
    days 4 and 5 and the luteal days the middle lines, the follicular
    days the mildest lines, and day 14 the middle physical line with
    the mildest psychological line. *)
Theorem guidance_depends_on_day (cycle_length current_day : Z) :
  1 <= cycle_length <= 60 →
  1 <= current_day <= cycle_length →
  ∃ p q,
    _calculate_impacts (stage_at current_day) current_day cycle_length = Ok (p, q) ∧
    PeriodStatePrompt._get_behavior_guidance (VFloat p) (VFloat q)
    = Ok (guidance_for_day current_day).
Proof.
  intros Hcl Hd.
  assert (guidance_matches_day cycle_length current_day = true) as H.
  { apply (for_all_days_spec 1 60 1 0); [vm_compute; reflexivity|lia|lia]. }
  unfold guidance_matches_day, impacts_on_day in H.
  destruct (_calculate_impacts _ _ _) as [[p q]|]; [|discriminate].
  exists p, q. split; [reflexivity|].
  destruct (PeriodStatePrompt._get_behavior_guidance _ _) as [text|]; [|discriminate].
  apply String.eqb_eq in H. rewrite H. reflexivity.
Qed.

(** ** Text *)

Lemma append_nonempty_r (a b : string) : b ≠ "" → a +:+ b ≠ "".
Proof. destruct a; [auto|discriminate]. Qed.

Lemma rstrip_cons (c : ascii) (s : string) :
  rstrip (String c s)
  = match rstrip s with
    | EmptyString => if is_whitespace c then EmptyString else String c EmptyString
    | r => String c r
    end.
Proof. reflexivity. Qed.

Lemma rstrips_to_app (a b r : string) :
  rstrips_to b r → rstrips_to (a +:+ b) (a +:+ r).
Proof.
  intros [Hb Hr]. split; [|apply append_nonempty_r, Hr].
  induction a as [|c a IH]; [exact Hb|].
  change (String c a +:+ b) with (String c (a +:+ b)).
  change (String c a +:+ r) with (String c (a +:+ r)).
  rewrite rstrip_cons, IH. pose proof (append_nonempty_r a r Hr) as Hne.
  destruct (a +:+ r); [contradiction|reflexivity].
Qed.

Lemma lstrip_line_break (c : ascii) (a b : string) :
  is_whitespace c = false →
  lstrip (nl +:+ (String c a +:+ b)) = String c a +:+ b.
Proof.
  intros H. change (lstrip (String c (a +:+ b)) = String c (a +:+ b)).
  cbn [lstrip]. rewrite H. reflexivity.
Qed.

(** ** The formatters *)

Lemma behavior_guidance_defined (p q : float) :
  ∃ g, PeriodStatePrompt._get_behavior_guidance (VFloat p) (VFloat q) = Ok g.
Proof.
  unfold PeriodStatePrompt._get_behavior_guidance, val_ge.
  cbn [mbind result_bind].
  destruct (PyFloat.ge p 0.7), (PyFloat.ge p 0.4), (PyFloat.ge q 0.6),
    (PyFloat.ge q 0.3); cbn [mbind result_bind]; eauto.
Qed.

(** The formatters read the heap and change nothing. *)
Lemma generate_prompt_reads_heap (float_repr : float → string) (l : loc) (m : Machine) :
  PeriodStatePrompt._generate_prompt float_repr l m
  = (fst (PeriodStatePrompt._generate_prompt float_repr l (heap_only (heap m))), m).
Proof.
  unfold PeriodStatePrompt._generate_prompt, deref, mbind, M_bind, lift.
  cbn [heap heap_only]. destruct (heap m !! l); reflexivity.
Qed.

Lemma generate_report_reads_heap (float_repr : float → string) (l : loc) (m : Machine) :
  PeriodStatusCommand._generate_status_report float_repr l m
  = (fst (PeriodStatusCommand._generate_status_report float_repr l
            (heap_only (heap m))), m).
Proof.
  unfold PeriodStatusCommand._generate_status_report, deref, mbind, M_bind, lift.
  cbn [heap heap_only]. destruct (heap m !! l); reflexivity.
Qed.

Lemma generate_prompt_of_state (float_repr : float → string) (l : loc) (m : Machine)
    (d cl : Z) (p q : float) (g : string) :
  heap m !! l = Some (state_dict (stage_at d) d cl p q) →
  PeriodStatePrompt._get_behavior_guidance (VFloat p) (VFloat q) = Ok g →
  PeriodStatePrompt._generate_prompt float_repr l m
  = (Ok (prompt_text float_repr (stage_at d) p q g), m).
Proof.
  intros Hl Hg.
  unfold PeriodStatePrompt._generate_prompt, deref, mbind, M_bind, lift.
  rewrite Hl. unfold dict_getitem.
  rewrite state_dict_stage_name, state_dict_physical, state_dict_psychological,
    state_dict_description.
  cbn [result_bind]. rewrite Hg. cbn [result_bind py_str].
  f_equal. f_equal. unfold strip.
  rewrite lstrip_line_break by reflexivity.
  unfold prompt_text. refine (proj1 (_ : rstrips_to _ _)).
  repeat apply rstrips_to_app. split; [vm_compute; reflexivity|discriminate].
Qed.

Lemma generate_report_of_state (float_repr : float → string) (l : loc) (m : Machine)
    (d cl : Z) (p q : float) :
  heap m !! l = Some (state_dict (stage_at d) d cl p q) →
  PeriodStatusCommand._generate_status_report float_repr l m
  = (Ok (report_text float_repr (stage_at d) d cl p q), m).
Proof.
  intros Hl.
  unfold PeriodStatusCommand._generate_status_report, deref, mbind, M_bind, lift.
  rewrite Hl. unfold dict_getitem.
  rewrite state_dict_stage, state_dict_stage_name, state_dict_current_day,
    state_dict_cycle_length, state_dict_physical, state_dict_psychological,
    state_dict_description.
  cbn [result_bind py_str]. f_equal. f_equal. unfold strip, report_text.
  assert (∃ c a, dict_get PeriodStatusCommand.stage_emoji (stage_at d) "❓"
                 = String c a ∧ is_whitespace c = false) as (c & a & -> & Hc).
  { unfold stage_at.
    destruct (d <=? 5); [|destruct (d <=? 13); [|destruct (d =? 14)]];
      eexists _, _; split; reflexivity. }
  rewrite lstrip_line_break by exact Hc.
  refine (proj1 (_ : rstrips_to _ _)).
  repeat apply rstrips_to_app. split; [vm_compute; reflexivity|discriminate].
Qed.

(** ** The entry points on the computing path *)

Lemma strptime_of_empty : ∀ d, PyDate.strptime_ymd "" ≠ Ok d.
Proof. intros d. discriminate. Qed.

(** X16: with the plugin enabled, a reference date that parses, a
    positive cycle length and no state cached for today, the prompt
    formatter stores the state of the day and returns its prompt: the
    template filled with the stage name, the two impacts, the
    description and the two guidance lines, without blanks around it;
    the prompt is also logged at debug level. *)
Theorem prompt_execute_returns_filled_template (float_repr : float → string)
    (cfg : PluginConfig) (today last_date : PyDate.date) (m : Machine) :
  get_config (plugin_enabled cfg) false = true →
  PyDate.strptime_ymd (get_config (cycle_last_period_date cfg) "") = Ok last_date →
  0 < get_config (cycle_cycle_length cfg) 28 →
  cached (state_manager m) (heap m) today = None →
  let cl := get_config (cycle_cycle_length cfg) 28 in
  let d := (today - last_date) mod cl + 1 in
  ∃ p q g,
    _calculate_impacts (stage_at d) d cl = Ok (p, q) ∧
    PeriodStatePrompt._get_behavior_guidance (VFloat p) (VFloat q) = Ok g ∧
    PeriodStatePrompt.execute float_repr cfg today m
    = (Ok (prompt_text float_repr (stage_at d) p q g),
       snd (logger LvlDebug
              ("周期状态提示词: " +:+ prompt_text float_repr (stage_at d) p q g)
              (stored today (state_dict (stage_at d) d cl p q) m))) ∧
    prompt_text float_repr (stage_at d) p q g ≠ "".
Proof.
  intros Hon Hparse Hcl Hmiss cl d.
  destruct (compute_from_defined today last_date cl m Hcl) as (p & q & Hi & Hrun).
  destruct (behavior_guidance_defined p q) as (g & Hg).
  exists p, q, g. split; [exact Hi|]. split; [exact Hg|]. split; [|discriminate].
  unfold PeriodStatePrompt.execute, try_except, PeriodStatePrompt.execute_body.
  rewrite Hon. fold cl.
  destruct (get_config (cycle_last_period_date cfg) "") as [|c s] eqn:Hs;
    [destruct (strptime_of_empty _ Hparse)|].
  cbn [negb str_truthy orb]. unfold mbind, M_bind.
  rewrite (calculate_miss _ _ _ _ Hmiss), Hparse, Hrun.
  rewrite (generate_prompt_of_state float_repr _ _ d cl p q g);
    [reflexivity|apply stored_lookup|exact Hg].
Qed.

(** X17: under the same conditions the status command stores the state
    of the day, sends its report (the template filled with the stage's
    emoji and name, the day index, the cycle length, the two impacts and
    the description, without blanks around it) and completes
    successfully. *)
Theorem command_execute_sends_filled_report (float_repr : float → string)
    (cfg : PluginConfig) (today last_date : PyDate.date) (m : Machine) :
  get_config (plugin_enabled cfg) false = true →
  PyDate.strptime_ymd (get_config (cycle_last_period_date cfg) "") = Ok last_date →
  0 < get_config (cycle_cycle_length cfg) 28 →
  cached (state_manager m) (heap m) today = None →
  let cl := get_config (cycle_cycle_length cfg) 28 in
  let d := (today - last_date) mod cl + 1 in
  ∃ p q,
    _calculate_impacts (stage_at d) d cl = Ok (p, q) ∧
    PeriodStatusCommand.execute float_repr cfg today m
    = (Ok (true, "发送周期状态报告", true),
       snd (send_text (report_text float_repr (stage_at d) d cl p q)
              (stored today (state_dict (stage_at d) d cl p q) m))).
Proof.
  intros Hon Hparse Hcl Hmiss cl d.
  destruct (compute_from_defined today last_date cl m Hcl) as (p & q & Hi & Hrun).
  exists p, q. split; [exact Hi|].
  unfold PeriodStatusCommand.execute, try_except, PeriodStatusCommand.execute_body.
  rewrite Hon. fold cl.
  destruct (get_config (cycle_last_period_date cfg) "") as [|c s] eqn:Hs;
    [destruct (strptime_of_empty _ Hparse)|].
  cbn [negb str_truthy]. unfold mbind, M_bind.
  rewrite (calculate_miss _ _ _ _ Hmiss), Hparse, Hrun.
  rewrite (generate_report_of_state float_repr _ _ d cl p q);
    [reflexivity|apply stored_lookup].
Qed.

Lemma command_body_outbox (float_repr : float → string) (cfg : PluginConfig)
    (today : PyDate.date) (m m' : Machine) (r : result (bool * string * bool)) :
  PeriodStatusCommand.execute_body float_repr cfg today m = (r, m') →
  match r with
  | Ok _ => ∃ text, outbox m' = outbox m ++ [text]
  | Raise _ => outbox m' = outbox m
  end.
Proof.
  unfold PeriodStatusCommand.execute_body.
  destruct (get_config (plugin_enabled cfg) false); cbn [negb];
    [|intros H; injection H as <- <-; eexists; reflexivity].
  destruct (str_truthy _); cbn [negb];
    [|intros H; injection H as <- <-; eexists; reflexivity].
  unfold mbind, M_bind.
  destruct (calculate_current_state _ _ _ m) as [[l|e] m1] eqn:Hcalc;
    pose proof (calculate_frame _ _ _ _ _ _ Hcalc) as (Ho & _).
  - rewrite generate_report_reads_heap.
    destruct (fst _) as [rep|e]; intros H; injection H as <- <-.
    + cbn. rewrite Ho. eexists; reflexivity.
    + exact Ho.
  - intros H; injection H as <- <-. exact Ho.
Qed.

(** X18: whatever the configuration and the state of the machine, the
    status command sends exactly one text per invocation. *)
Theorem command_sends_exactly_one_text (float_repr : float → string)
    (cfg : PluginConfig) (today : PyDate.date) (m : Machine) :
  ∃ r m' text,
    PeriodStatusCommand.execute float_repr cfg today m = (Ok r, m') ∧
    outbox m' = outbox m ++ [text].
Proof.
  unfold PeriodStatusCommand.execute, try_except.
  destruct (PeriodStatusCommand.execute_body float_repr cfg today m)
    as [[r|e] m1] eqn:Hbody;
    pose proof (command_body_outbox _ _ _ _ _ _ Hbody) as Ho; cbn in Ho.
  - destruct Ho as (text & Ho). eauto.
  - destruct e; cbn [is_Exception]; eexists _, _, _;
      (split; [reflexivity|cbn; rewrite Ho; reflexivity]).
Qed.

(** X19: the prompt formatter never sends text, and never changes or
    removes an object already on the heap. *)
Theorem prompt_execute_sends_nothing (float_repr : float → string)
    (cfg : PluginConfig) (today : PyDate.date) (m m' : Machine)
    (r : result string) :
  PeriodStatePrompt.execute float_repr cfg today m = (r, m') →
  outbox m' = outbox m ∧
  ∀ l state, heap m !! l = Some state → heap m' !! l = Some state.
Proof.
  assert (∀ r1 m1,
            PeriodStatePrompt.execute_body float_repr cfg today m = (r1, m1) →
            outbox m1 = outbox m ∧
            ∀ l state, heap m !! l = Some state → heap m1 !! l = Some state)
    as Hbody.
  { unfold PeriodStatePrompt.execute_body. intros r1 m1.
    destruct (negb _ || negb _); [intros H; injection H as <- <-; auto|].
    unfold mbind, M_bind.
    destruct (calculate_current_state _ _ _ m) as [[l|e] m2] eqn:Hcalc;
      pose proof (calculate_frame _ _ _ _ _ _ Hcalc) as (Ho & _ & _ & Hh).
    - rewrite generate_prompt_reads_heap.
      destruct (fst _) as [text|e]; intros H; injection H as <- <-; cbn; auto.
    - intros H; injection H as <- <-. auto. }
  unfold PeriodStatePrompt.execute, try_except.
  destruct (PeriodStatePrompt.execute_body float_repr cfg today m)
    as [[t|e] m1] eqn:Hb; destruct (Hbody _ _ eq_refl) as [Ho Hh].
  - intros H; injection H as <- <-. auto.
  - destruct e; cbn [is_Exception]; intros H; injection H as <- <-; cbn; auto.
Qed.

(** X20: with the plugin enabled, a reference date that parses, no state
    cached for today and a cycle length of zero, the status command
    reports the failure: it logs the division error, sends the failure
    text and returns the failed signal with the error in its message;
    nothing is stored. *)
Theorem command_fails_on_zero_cycle_length (float_repr : float → string)
    (cfg : PluginConfig) (today last_date : PyDate.date) (m : Machine) :
  get_config (plugin_enabled cfg) false = true →
  PyDate.strptime_ymd (get_config (cycle_last_period_date cfg) "") = Ok last_date →
  get_config (cycle_cycle_length cfg) 28 = 0 →
  cached (state_manager m) (heap m) today = None →
  PeriodStatusCommand.execute float_repr cfg today m
  = (Ok (false, "查询失败: integer modulo by zero", true),
     {| state_manager := state_manager m; heap := heap m;
        log := log m ++ [(LvlError, "查询周期状态失败: integer modulo by zero")];
        outbox := outbox m ++ [PeriodStatusCommand.msg_failed] |}).
Proof.
  intros Hon Hparse Hcl Hmiss.
  unfold PeriodStatusCommand.execute, try_except, PeriodStatusCommand.execute_body.
  rewrite Hon, Hcl.
  destruct (get_config (cycle_last_period_date cfg) "") as [|c s] eqn:Hs;
    [destruct (strptime_of_empty _ Hparse)|].
  cbn [negb str_truthy]. unfold mbind, M_bind.
  rewrite (calculate_miss _ _ _ _ Hmiss), Hparse. reflexivity.
Qed.

(** X21: once the prompt formatter has returned a prompt on a calendar
    date, every later call on that date returns the same prompt as long
    as the plugin is enabled and some reference date is configured,
    whatever the reference date and the cycle length have become. *)
Theorem prompt_is_stable_within_the_day (float_repr : float → string)
    (cfg cfg' : PluginConfig) (today : PyDate.date) (m m1 : Machine)
    (text : string) :
  PeriodStatePrompt.execute float_repr cfg today m = (Ok text, m1) →
  text ≠ "" →
  get_config (plugin_enabled cfg') false = true →
  get_config (cycle_last_period_date cfg') "" ≠ "" →
  ∃ m2, PeriodStatePrompt.execute float_repr cfg' today m1 = (Ok text, m2) ∧
        state_manager m2 = state_manager m1 ∧ heap m2 = heap m1.
Proof.
  intros Hfirst Htext Hon Hdate.
  assert (∃ l ma,
            calculate_current_state today
              (get_config (cycle_last_period_date cfg) "")
              (get_config (cycle_cycle_length cfg) 28) m = (Ok l, ma) ∧
            fst (PeriodStatePrompt._generate_prompt float_repr l (heap_only (heap ma)))
              = Ok text ∧
            state_manager m1 = state_manager ma ∧ heap m1 = heap ma)
    as (l & ma & Hcalc & Hgen & Hs & Hh).
  { unfold PeriodStatePrompt.execute, try_except in Hfirst.
    destruct (PeriodStatePrompt.execute_body float_repr cfg today m)
      as [[t|e] mb] eqn:Hb.
    - injection Hfirst as -> ->.
      unfold PeriodStatePrompt.execute_body in Hb.
      destruct (negb _ || negb _);
        [injection Hb as <- _; contradiction Htext; reflexivity|].
      unfold mbind, M_bind in Hb.
      destruct (calculate_current_state _ _ _ m) as [[l|e] ma]; [|discriminate].
      rewrite generate_prompt_reads_heap in Hb.
      destruct (fst _) as [t|e] eqn:Hg; [|discriminate].
      injection Hb as <- <-. exists l, ma. cbn. auto.
    - destruct e; cbn [is_Exception] in Hfirst;
        injection Hfirst as <- _; contradiction Htext; reflexivity. }
  pose proof (returned_is_cached _ _ _ _ _ _ Hcalc) as Hc.
  rewrite <- Hs, <- Hh in Hc. rewrite <- Hh in Hgen.
  unfold PeriodStatePrompt.execute, try_except, PeriodStatePrompt.execute_body.
  rewrite Hon.
  destruct (get_config (cycle_last_period_date cfg') "") as [|c s];
    [contradiction Hdate; reflexivity|].
  cbn [negb str_truthy orb]. unfold mbind, M_bind.
  rewrite (calculate_hit _ _ _ _ _ Hc), generate_prompt_reads_heap, Hgen.
  eexists. split; [reflexivity|]. split; reflexivity.
Qed.

(** ** The log is write-only *)

Lemma compute_from_eq (today last : PyDate.date) (cl : Z) (m : Machine) :
  compute_from today last cl m =
  match int_mod (today - last) cl with
  | Raise e => (Raise e, m)
  | Ok r =>
      match _calculate_impacts (stage_at (r + 1)) (r + 1) cl with
      | Raise e => (Raise e, m)
      | Ok (p, q) =>
          (Ok (length (heap m)),
           stored today (state_dict (stage_at (r + 1)) (r + 1) cl p q) m)
      end
  end.
Proof.
  unfold compute_from, lift, mbind, M_bind.
  destruct (int_mod (today - last) cl) as [r|e]; [|reflexivity].
  destruct (_calculate_impacts _ _ cl) as [[p q]|e]; reflexivity.
Qed.

Lemma compute_from_same_but_log (today last : PyDate.date) (cl : Z) (m1 m2 : Machine) :
  same_but_log m1 m2 →
  fst (compute_from today last cl m1) = fst (compute_from today last cl m2) ∧
  same_but_log (snd (compute_from today last cl m1))
    (snd (compute_from today last cl m2)).
Proof.
  intros (Hs & Hh & Ho). rewrite !compute_from_eq.
  destruct (int_mod (today - last) cl) as [r|e]; [|repeat split; assumption].
  destruct (_calculate_impacts _ _ cl) as [[p q]|e]; [|repeat split; assumption].
  unfold same_but_log, stored; cbn. rewrite Hh, Ho. repeat split.
Qed.

(** What was logged before has no influence on a call. *)
Lemma calculate_same_but_log (today : PyDate.date) (s : string) (cl : Z)
    (m1 m2 : Machine) :
  same_but_log m1 m2 →
  fst (calculate_current_state today s cl m1)
  = fst (calculate_current_state today s cl m2) ∧
  same_but_log (snd (calculate_current_state today s cl m1))
    (snd (calculate_current_state today s cl m2)).
Proof.
  intros H. pose proof H as (Hs & Hh & Ho).
  destruct (cached (state_manager m1) (heap m1) today) as [l|] eqn:Hc.
  - rewrite (calculate_hit _ _ _ m1 _ Hc).
    rewrite Hs, Hh in Hc. rewrite (calculate_hit _ _ _ m2 _ Hc). split; [reflexivity|exact H].
  - rewrite (calculate_miss _ _ _ m1 Hc).
    rewrite Hs, Hh in Hc. rewrite (calculate_miss _ _ _ m2 Hc).
    assert (same_but_log (logged_bad_date s m1) (logged_bad_date s m2)) as Hlog
      by (repeat split; assumption).
    destruct (PyDate.strptime_ymd s); [apply compute_from_same_but_log, H|].
    destruct (PyDate.sub_days today 14);
      [apply compute_from_same_but_log, Hlog|split; [reflexivity|exact Hlog]].
Qed.

Lemma handler_only_logs (cfg : PluginConfig) (params : pydict) (m : Machine) :
  fst (PeriodStateUpdateHandler.execute cfg params m)
  = Ok {| success := true; continue_process := true |} ∧
  same_but_log (snd (PeriodStateUpdateHandler.execute cfg params m)) m.
Proof.
  unfold PeriodStateUpdateHandler.execute, PeriodStateUpdateHandler.execute_body,
    try_except, mbind, M_bind.
  destruct (get_config (plugin_enabled cfg) false), (str_truthy _);
    cbn; repeat split.
Qed.

(** X22: the startup handler always reports success and lets the host
    continue; it computes and caches no state, so running it first
    changes neither the text the prompt formatter returns nor the result
    and the texts of the status command. *)
Theorem startup_handler_does_not_affect_later_calls (float_repr : float → string)
    (cfg cfg' : PluginConfig) (params : pydict) (today : PyDate.date) (m : Machine) :
  let started := snd (PeriodStateUpdateHandler.execute cfg params m) in
  fst (PeriodStateUpdateHandler.execute cfg params m)
  = Ok {| success := true; continue_process := true |} ∧
  state_manager started = state_manager m ∧ heap started = heap m ∧
  fst (PeriodStatePrompt.execute float_repr cfg' today started)
  = fst (PeriodStatePrompt.execute float_repr cfg' today m) ∧
  fst (PeriodStatusCommand.execute float_repr cfg' today started)
  = fst (PeriodStatusCommand.execute float_repr cfg' today m) ∧
  outbox (snd (PeriodStatusCommand.execute float_repr cfg' today started))
  = outbox (snd (PeriodStatusCommand.execute float_repr cfg' today m)).
Proof.
  intros started.
  destruct (handler_only_logs cfg params m) as [Hres Hsame]. fold started in Hsame.
  clearbody started.
  split; [exact Hres|]. pose proof Hsame as (Hs & Hh & Ho).
  split; [exact Hs|]. split; [exact Hh|].
  pose proof (calculate_same_but_log today
                (get_config (cycle_last_period_date cfg') "")
                (get_config (cycle_cycle_length cfg') 28) started m Hsame)
    as [Hfst Hsnd].
  split; [|split].
  - unfold PeriodStatePrompt.execute, try_except, PeriodStatePrompt.execute_body.
    destruct (negb _ || negb _); [reflexivity|].
    unfold mbind, M_bind.
    destruct (calculate_current_state _ _ _ started) as [[l1|e1] ma],
      (calculate_current_state _ _ _ m) as [[l2|e2] mb];
      cbn in Hfst, Hsnd; try discriminate; injection Hfst as <-.
    + rewrite (generate_prompt_reads_heap _ _ ma), (generate_prompt_reads_heap _ _ mb).
      destruct Hsnd as (_ & -> & _).
      destruct (fst (PeriodStatePrompt._generate_prompt float_repr l1
                       (heap_only (heap mb)))) as [t|e];
        [reflexivity|]. destruct e; reflexivity.
    + destruct e1; reflexivity.
  - unfold PeriodStatusCommand.execute, try_except, PeriodStatusCommand.execute_body.
    destruct (negb (get_config _ _)); [reflexivity|].
    destruct (negb (str_truthy _)); [reflexivity|].
    unfold mbind, M_bind.
    destruct (calculate_current_state _ _ _ started) as [[l1|e1] ma],
      (calculate_current_state _ _ _ m) as [[l2|e2] mb];
      cbn in Hfst, Hsnd; try discriminate; injection Hfst as <-.
    + rewrite (generate_report_reads_heap _ _ ma), (generate_report_reads_heap _ _ mb).
      destruct Hsnd as (_ & -> & _).
      destruct (fst (PeriodStatusCommand._generate_status_report float_repr l1
                       (heap_only (heap mb)))) as [t|e];
        [reflexivity|]. destruct e; reflexivity.
    + destruct e1; reflexivity.
  - unfold PeriodStatusCommand.execute, try_except, PeriodStatusCommand.execute_body,
      mbind, M_bind.
    destruct (negb (get_config _ _)); [cbn; rewrite Ho; reflexivity|].
    destruct (negb (str_truthy _)); [cbn; rewrite Ho; reflexivity|].
    destruct (calculate_current_state _ _ _ started) as [[l1|e1] ma],
      (calculate_current_state _ _ _ m) as [[l2|e2] mb];
      cbn in Hfst, Hsnd; try discriminate; injection Hfst as <-;
      destruct Hsnd as (_ & Hh' & Ho').
    + rewrite (generate_report_reads_heap _ _ ma), (generate_report_reads_heap _ _ mb).
      rewrite Hh'.
      destruct (fst (PeriodStatusCommand._generate_status_report float_repr l1
                       (heap_only (heap mb)))) as [t|e];
        [cbn; rewrite Ho'; reflexivity|].
      destruct e; cbn; rewrite Ho'; reflexivity.
    + destruct e1; cbn; rewrite Ho'; reflexivity.
Qed.

(** X23: a disabled plugin registers the startup handler alone, and
    that handler then leaves the machine exactly as it was, the log
    included; an enabled plugin registers the handler, the prompt and
    the command, in this order. *)
Theorem disabled_plugin_is_inert (cfg : PluginConfig) (params : pydict) (m : Machine) :
  (get_config (plugin_enabled cfg) false = false →
   MofoxPeriodPlugin.get_plugin_components cfg
   = [PeriodStateUpdateHandlerComponent] ∧
   PeriodStateUpdateHandler.execute cfg params m
   = (Ok {| success := true; continue_process := true |}, m)) ∧
  (get_config (plugin_enabled cfg) false = true →
   MofoxPeriodPlugin.get_plugin_components cfg
   = [PeriodStateUpdateHandlerComponent; PeriodStatePromptComponent;
      PeriodStatusCommandComponent]).
Proof.
  unfold MofoxPeriodPlugin.get_plugin_components, PeriodStateUpdateHandler.execute,
    PeriodStateUpdateHandler.execute_body, try_except, mbind, M_bind.
  split; intros ->; [split|]; reflexivity.
Qed.

(** ** Worked examples of the further properties *)

(** X1 on a call with a malformed date: one object and one record are
    added. *)
Lemma calculate_only_appends_witness :
  let run := calculate_current_state example_today "not-a-date" 28 fresh_machine in
  outbox (snd run) = outbox fresh_machine ∧
  (∃ new, heap (snd run) = heap fresh_machine ++ new ∧ (length new <= 1)%nat) ∧
  (∃ records, log (snd run) = log fresh_machine ++ records ∧
              (length records <= 1)%nat) ∧
  (∀ l state, heap fresh_machine !! l = Some state →
              heap (snd run) !! l = Some state).
Proof.
  intros run.
  apply (calculate_only_appends example_today "not-a-date" 28 fresh_machine
           (snd run) (fst run)).
  vm_compute; reflexivity.
Defined.

(** X2 on a call with a cycle length of zero. *)
Lemma calculate_failure_keeps_cache_witness :
  let run := calculate_current_state example_today "not-a-date" 0 fresh_machine in
  fst run = Raise (ZeroDivisionError "integer modulo by zero") ∧
  state_manager (snd run) = state_manager fresh_machine ∧
  heap (snd run) = heap fresh_machine.
Proof.
  intros run. split; [vm_compute; reflexivity|].
  destruct (calculate_failure_keeps_cache example_today "not-a-date" 0 fresh_machine
              (snd run) (ZeroDivisionError "integer modulo by zero"))
    as (Hs & Hh & _); [vm_compute; reflexivity|].
  split; assumption.
Defined.

(** X3 on a reference date that parses. *)
Lemma zero_cycle_length_raises_witness :
  calculate_current_state example_today "2024-04-27" 0 fresh_machine
  = (Raise (ZeroDivisionError "integer modulo by zero"), fresh_machine).
Proof.
  apply (zero_cycle_length_raises example_today (PyDate.ymd2ord 2024 4 27));
    [reflexivity|vm_compute; reflexivity].
Defined.

(** X4 on a cycle length of -100: day -86. *)
Lemma negative_cycle_length_is_menstrual_witness :
  - PyFloat.overflow_threshold < -100 < 0 ∧
  ∃ m' state,
    calculate_current_state example_today "2024-04-27" (-100) fresh_machine
      = (Ok 0%nat, m') ∧
    heap m' !! 0%nat = Some state ∧
    state !! "current_day" = Some (VInt (-86)) ∧
    state !! "stage" = Some (VStr "menstrual").
Proof.
  assert (- PyFloat.overflow_threshold < -100 < 0) as H
    by (vm_compute; split; reflexivity).
  split; [exact H|].
  apply (negative_cycle_length_is_menstrual example_today (PyDate.ymd2ord 2024 4 27)
           "2024-04-27" (-100) fresh_machine);
    [reflexivity|vm_compute; reflexivity|exact H].
Defined.

(** X5 on two consecutive days. *)
Lemma next_day_call_allocates_new_object_witness :
  let first := calculate_current_state example_today "2024-04-27" 28 fresh_machine in
  fst first = Ok 0%nat ∧
  ∃ l' m2 old,
    calculate_current_state (example_today + 1) "2024-04-27" 28 (snd first)
      = (Ok l', m2) ∧
    l' ≠ 0%nat ∧
    heap (snd first) !! 0%nat = Some old ∧ heap m2 !! 0%nat = Some old.
Proof.
  intros first. split; [vm_compute; reflexivity|].
  destruct (next_day_call_allocates_new_object fresh_machine (snd first)
              example_today (example_today + 1) (PyDate.ymd2ord 2024 4 27)
              "2024-04-27" "2024-04-27" 28 28 0%nat)
    as (l' & m2 & old & new & H1 & H2 & H3 & H4 & _);
    [vm_compute; reflexivity|vm_compute; discriminate|vm_compute; reflexivity|lia|].
  exists l', m2, old. repeat split; assumption.
Defined.

(** X6 three cycles later. *)
Lemma state_is_periodic_witness :
  ∃ m1' m2' state,
    calculate_current_state example_today "2024-04-27" 28 fresh_machine
      = (Ok 0%nat, m1') ∧
    calculate_current_state (example_today + 3 * 28) "2024-04-27" 28 fresh_machine
      = (Ok 0%nat, m2') ∧
    heap m1' !! 0%nat = Some state ∧
    heap m2' !! 0%nat = Some state.
Proof.
  apply (state_is_periodic fresh_machine fresh_machine example_today
           (PyDate.ymd2ord 2024 4 27) "2024-04-27" 28 3);
    [reflexivity|reflexivity|vm_compute; reflexivity|lia].
Defined.

(** X7 on the last day of a cycle of 14 days. *)
Lemma day_index_advances_witness :
  0 < 14 ∧
  (example_today + 1 - PyDate.ymd2ord 2024 4 27) mod 14 + 1 = 1.
Proof.
  split; [lia|].
  destruct (day_index_advances example_today (PyDate.ymd2ord 2024 4 27) 14)
    as [H _]; [lia|]. exact H.
Defined.

(** X8 on the reference date itself. *)
Lemma reference_date_today_is_day_one_witness :
  calculate_current_state example_today "2024-05-10" 28 fresh_machine
  = (Ok 0%nat, stored example_today (state_dict "menstrual" 1 28 0.8 0.7) fresh_machine).
Proof.
  apply (reference_date_today_is_day_one example_today "2024-05-10" 28 fresh_machine);
    [reflexivity|vm_compute; reflexivity|lia].
Defined.


(** X10 on a stage name with a capital letter. *)
Lemma impacts_of_unknown_stage_raise_witness :
  _calculate_impacts "Luteal" 20 28 = Raise (KeyError "Luteal").
Proof.
  apply (impacts_of_unknown_stage_raise "Luteal" 20 28); discriminate.
Defined.

(** X11 on the same name. *)
Lemma unknown_stage_gets_defaults_witness :
  _get_stage_name_cn "Luteal" = "未知阶段" ∧
  _get_stage_description "Luteal" = "" ∧
  dict_get PeriodStatusCommand.stage_emoji "Luteal" "❓" = "❓".
Proof.
  apply (unknown_stage_gets_defaults "Luteal"); discriminate.
Defined.

(** X12 on day 9 of a cycle of 9 days. *)
Lemma impacts_within_base_values_witness :
  1 <= 9 <= 60 ∧ 1 <= 9 <= 9 ∧
  ∃ p q,
    _calculate_impacts (stage_at 9) 9 9 = Ok (p, q) ∧
    PrimFloat.leb 0.1 p = true ∧ PrimFloat.leb p 0.8 = true ∧
    PrimFloat.leb 0.1 q = true ∧ PrimFloat.leb q 0.7 = true ∧
    PrimFloat.leb q p = true.
Proof.
  split; [lia|]. split; [lia|].
  apply (impacts_within_base_values 9 9); lia.
Defined.

(** X13 from day 2 to day 3. *)
Lemma menstrual_impacts_decrease_witness :
  1 <= 2 <= 4 ∧
  ∃ p q p' q',
    _calculate_impacts "menstrual" 2 28 = Ok (p, q) ∧
    _calculate_impacts "menstrual" (2 + 1) 28 = Ok (p', q') ∧
    PrimFloat.ltb p' p = true ∧ PrimFloat.ltb q' q = true.
Proof.
  split; [lia|]. apply (menstrual_impacts_decrease 28 2); lia.
Defined.

(** X14 from day 20 to day 21 of a cycle of 28 days. *)
Lemma luteal_impacts_do_not_decrease_witness :
  16 <= 28 <= 60 ∧ 15 <= 20 <= 28 - 1 ∧
  ∃ p q p' q',
    _calculate_impacts "luteal" 20 28 = Ok (p, q) ∧
    _calculate_impacts "luteal" (20 + 1) 28 = Ok (p', q') ∧
    PrimFloat.leb p p' = true ∧ PrimFloat.leb q q' = true.
Proof.
  split; [lia|]. split; [lia|].
  apply (luteal_impacts_do_not_decrease 28 20); lia.
Defined.

(** X15 on day 14 of a cycle of 28 days. *)
Lemma guidance_depends_on_day_witness :
  1 <= 28 <= 60 ∧ 1 <= 14 <= 28 ∧
  ∃ p q,
    _calculate_impacts (stage_at 14) 14 28 = Ok (p, q) ∧
    PeriodStatePrompt._get_behavior_guidance (VFloat p) (VFloat q)
    = Ok (guidance_for_day 14).
Proof.
  split; [lia|]. split; [lia|].
  apply (guidance_depends_on_day 28 14); lia.
Defined.

(** X16 on the example configuration: day 14, the ovulation stage. *)
Lemma prompt_execute_returns_filled_template_witness :
  ∃ p q g,
    _calculate_impacts (stage_at 14) 14 28 = Ok (p, q) ∧
    PeriodStatePrompt._get_behavior_guidance (VFloat p) (VFloat q) = Ok g ∧
    fst (PeriodStatePrompt.execute example_repr example_config example_today
           fresh_machine)
    = Ok (prompt_text example_repr (stage_at 14) p q g).
Proof.
  destruct (prompt_execute_returns_filled_template example_repr example_config
              example_today (PyDate.ymd2ord 2024 4 27) fresh_machine)
    as (p & q & g & Hi & Hg & Hrun & _);
    [reflexivity|vm_compute; reflexivity|reflexivity|reflexivity|].
  exists p, q, g. split; [exact Hi|]. split; [exact Hg|].
  rewrite Hrun. reflexivity.
Defined.

(** X17 on the example configuration. *)
Lemma command_execute_sends_filled_report_witness :
  ∃ p q,
    _calculate_impacts (stage_at 14) 14 28 = Ok (p, q) ∧
    fst (PeriodStatusCommand.execute example_repr example_config example_today
           fresh_machine)
    = Ok (true, "发送周期状态报告", true) ∧
    outbox (snd (PeriodStatusCommand.execute example_repr example_config
                   example_today fresh_machine))
    = [report_text example_repr (stage_at 14) 14 28 p q].
Proof.
  destruct (command_execute_sends_filled_report example_repr example_config
              example_today (PyDate.ymd2ord 2024 4 27) fresh_machine)
    as (p & q & Hi & Hrun);
    [reflexivity|vm_compute; reflexivity|reflexivity|reflexivity|].
  exists p, q. split; [exact Hi|]. rewrite Hrun. split; reflexivity.
Defined.

(** X19 on the example configuration. *)
Lemma prompt_execute_sends_nothing_witness :
  outbox (snd (PeriodStatePrompt.execute example_repr example_config example_today
                 fresh_machine))
  = outbox fresh_machine.
Proof.
  destruct (prompt_execute_sends_nothing example_repr example_config example_today
              fresh_machine
              (snd (PeriodStatePrompt.execute example_repr example_config
                      example_today fresh_machine))
              (fst (PeriodStatePrompt.execute example_repr example_config
                      example_today fresh_machine)))
    as [Ho _]; [vm_compute; reflexivity|exact Ho].
Defined.

(** X20 on the example configuration with a cycle length of zero. *)
Lemma command_fails_on_zero_cycle_length_witness :
  PeriodStatusCommand.execute example_repr example_config_zero example_today
    fresh_machine
  = (Ok (false, "查询失败: integer modulo by zero", true),
     {| state_manager := PeriodStateManager_init; heap := [];
        log := [(LvlError, "查询周期状态失败: integer modulo by zero")];
        outbox := ["❌ 查询状态失败，请检查配置"] |}).
Proof.
  apply (command_fails_on_zero_cycle_length example_repr example_config_zero
           example_today (PyDate.ymd2ord 2024 4 27) fresh_machine);
    [reflexivity|vm_compute; reflexivity|reflexivity|reflexivity].
Defined.

(** X21: after a first prompt the configuration gets a cycle length of
    zero, and the prompt stays. *)
Lemma prompt_is_stable_within_the_day_witness :
  let first := PeriodStatePrompt.execute example_repr example_config example_today
                 fresh_machine in
  fst first ≠ Ok "" ∧
  fst (PeriodStatePrompt.execute example_repr example_config_zero example_today
         (snd first)) = fst first.
Proof.
  intros first. split; [vm_compute; discriminate|].
  let r := eval vm_compute in (fst first) in
  match r with
  | Ok ?text =>
      destruct (prompt_is_stable_within_the_day example_repr example_config
                  example_config_zero example_today fresh_machine (snd first) text)
        as (m2 & H2 & _);
        [vm_compute; reflexivity|discriminate|reflexivity|discriminate|]
  end.
  rewrite H2. vm_compute; reflexivity.
Defined.
